(** * LANC standards: health endpoints and error handlers

    A shallow embedding of the JavaScript templates of the repository
    ([examples/health-endpoints.js], [examples/error-handlers.js] and
    [examples/server-setup.js]) and the properties of the health and
    error contract that they implement.

    Route handlers are computations in a small monad that threads the
    console output and the clock, may throw any JavaScript value, and
    may stay pending forever (an [await] on a promise that never
    settles).  The response a handler sends with
    [res.status(c).json(o)] is the value it returns. *)

From Stdlib Require Import ZArith QArith_base String Ascii List Bool Lia.
From stdpp Require Import gmap strings.
Import ListNotations.

Set Warnings "-register-all".

Local Open Scope Z_scope.
Local Open Scope string_scope.

(** ** JavaScript values *)

(** The values that the templates build: strings, numbers, [null],
    [undefined] and object literals.  An object keeps its properties in
    insertion order, as [Object.values] and [JSON.stringify] see them. *)
Inductive value : Type :=
| VUndefined
| VNull
| VStr (s : string)
| VNum (q : Q)
| VObj (props : list (string * value)).

(** [JSON.stringify] as used by [res.json]: a property whose value is
    [undefined] is left out, at every depth. *)
Fixpoint to_json (v : value) : value :=
  match v with
  | VObj props =>
      VObj ((fix props_to_json (l : list (string * value)) :=
               match l with
               | [] => []
               | (k, VUndefined) :: r => props_to_json r
               | (k, x) :: r => (k, to_json x) :: props_to_json r
               end) props)
  | _ => v
  end.

(** Property access [o.k]; a missing property reads as [undefined]. *)
Fixpoint lookup_prop (k : string) (props : list (string * value)) : value :=
  match props with
  | [] => VUndefined
  | (k', x) :: r => if String.eqb k k' then x else lookup_prop k r
  end.

Definition get (k : string) (v : value) : value :=
  match v with
  | VObj props => lookup_prop k props
  | _ => VUndefined
  end.

(** [Object.keys(o)]. *)
Definition Object_keys (v : value) : list string :=
  match v with
  | VObj props => map fst props
  | _ => []
  end.

(** The body without one of its top-level properties. *)
Definition without (k : string) (v : value) : value :=
  match v with
  | VObj props => VObj (filter (fun p => negb (String.eqb k (fst p))) props)
  | _ => v
  end.

(** A [checks] object: check name to check result, both strings. *)
Definition Checks : Type := list (string * string).

Definition Object_values (checks : Checks) : list string := map snd checks.

Definition checks_value (checks : Checks) : value :=
  VObj (map (fun p => (fst p, VStr (snd p))) checks).

(** ** Errors, requests, responses *)

(** An [Error] object, of which the templates read [message] and
    [stack]. *)
Record Error : Type := mkError { message : string; stack : string }.

(** An [Error] object among the values.  Any value can be thrown; where
    an [Error] stands for a value it is this object. *)
Definition error_value (e : Error) : value :=
  VObj [("message", VStr (message e)); ("stack", VStr (stack e))].

Coercion error_value : Error >-> value.

(** [null] and [undefined], the two values that have no properties. *)
Definition nullish (v : value) : bool :=
  match v with
  | VUndefined | VNull => true
  | _ => false
  end.

(** The [TypeError] that reading a property of [null] or [undefined]
    raises, with the wording of V8; of the stack only the first line is
    kept. *)
Definition cannot_read (name : string) (v : value) : Error :=
  let msg :=
    "Cannot read properties of "
    ++ (match v with VNull => "null" | _ => "undefined" end)
    ++ " (reading '" ++ name ++ "')" in
  mkError msg ("TypeError: " ++ msg).

Record Request : Type := mkRequest {
  method : string;
  originalUrl : string;
  path : string;
  headers : gmap string string;   (* node lower-cases header names *)
  ip : string
}.

Record Response : Type := mkResponse { statusCode : Z; body : value }.

(** [req.get(name)] and [req.headers[name]]. *)
Definition header (name : string) (req : Request) : value :=
  match headers req !! name with
  | Some s => VStr s
  | None => VUndefined
  end.

(** ** The process and its effects *)

(** What a handler reads from its process: the environment variables as
    they are when the request is handled, the successive readings of the
    system clock (milliseconds since the epoch) and the uptime. *)
Record World : Type := mkWorld {
  env : gmap string string;
  clock : nat -> Z;
  process_uptime : Q
}.

(** [console.log] writes to the standard output, [console.error] to the
    standard error. *)
Inductive level : Type := Log | Err.

(** What a handler changes: the lines written to the console (oldest
    first), the dependency checks entered so far (a ghost trace, oldest
    first) and the number of clock readings taken. *)
Record State : Type := mkState {
  console : list (level * list value);
  invoked : list string;
  ticks : nat
}.

Inductive outcome (A : Type) : Type :=
| Ok (a : A)
| Throw (thrown : value)
| Pending.
Arguments Ok {A} a.
Arguments Throw {A} thrown.
Arguments Pending {A}.

Definition M (A : Type) : Type := World -> State -> outcome A * State.

Definition ret {A} (a : A) : M A := fun _ s => (Ok a, s).

Definition bind {A B} (c : M A) (k : A -> M B) : M B :=
  fun w s =>
    match c w s with
    | (Ok a, s') => k a w s'
    | (Throw e, s') => (Throw e, s')
    | (Pending, s') => (Pending, s')
    end.

Notation "'let!' x ':=' c1 'in' c2" := (bind c1 (fun x => c2))
  (at level 10, x name, c1 at level 100, c2 at level 200).

(** [throw v]: any value can be thrown. *)
Definition throw {A} (v : value) : M A := fun _ s => (Throw v, s).

(** A promise that never settles: nothing after the [await] runs, and no
    [catch] block either. *)
Definition never {A} : M A := fun _ s => (Pending, s).

(** [try { c } catch (error) { h error }]. *)
Definition try_catch {A} (c : M A) (h : value -> M A) : M A :=
  fun w s =>
    match c w s with
    | (Throw e, s') => h e w s'
    | r => r
    end.

(** [v.name]: reading a property of [null] or [undefined] throws a
    [TypeError]; a property that a value does not have reads as
    [undefined]. *)
Definition get_property (name : string) (v : value) : M value :=
  if nullish v then throw (cannot_read name v) else ret (get name v).

(** The state after one more console line. *)
Definition logged (l : level) (args : list value) (s : State) : State :=
  mkState (console s ++ [(l, args)]) (invoked s) (ticks s).

(** The state after entering a dependency check. *)
Definition entered (name : string) (s : State) : State :=
  mkState (console s) (invoked s ++ [name]) (ticks s).

(** The state after one more reading of the clock. *)
Definition tick (s : State) : State :=
  mkState (console s) (invoked s) (S (ticks s)).

Definition console_write (l : level) (args : list value) : M unit :=
  fun _ s => (Ok tt, logged l args s).

Definition console_log : list value -> M unit := console_write Log.
Definition console_error : list value -> M unit := console_write Err.

(** Ghost step: a dependency check has been entered. *)
Definition enter_check (name : string) : M unit :=
  fun _ s => (Ok tt, entered name s).

(** [process.env.NAME], [undefined] when unset. *)
Definition process_env (name : string) : M (option string) :=
  fun w s => (Ok (env w !! name), s).

(** [x || d] on a string that may be undefined: the empty string is
    falsy too. *)
Definition or_default (x : option string) (d : string) : string :=
  match x with
  | Some s => if String.eqb s "" then d else s
  | None => d
  end.

(** [!x] on a string that may be undefined. *)
Definition falsy (x : option string) : bool :=
  match x with
  | Some s => String.eqb s ""
  | None => true
  end.

Definition uptime : M Q := fun w s => (Ok (process_uptime w), s).

(** ** Dates: [new Date().toISOString()] *)

(** ECMAScript time values are milliseconds since 1970-01-01T00:00Z.
    The accessors below follow the abstract operations of the language
    specification ([Day], [HourFromTime], ...); all divisions round
    towards minus infinity, as [Z.div] does for a positive divisor. *)
Module Date.

Local Open Scope Z_scope.

Definition msPerDay : Z := 86400000.

Definition Day (t : Z) : Z := t / msPerDay.
Definition HourFromTime (t : Z) : Z := (t / 3600000) mod 24.
Definition MinFromTime (t : Z) : Z := (t / 60000) mod 60.
Definition SecFromTime (t : Z) : Z := (t / 1000) mod 60.
Definition msFromTime (t : Z) : Z := t mod 1000.

(** Position of a day in its 400-year cycle (cycles start on 1 March of
    a year divisible by 400), as year of the cycle, month and day of the
    month. *)
Definition civil_of_doe (doe : Z) : Z * Z * Z :=
  let yoe := (doe - doe / 1460 + doe / 36524 - doe / 146096) / 365 in
  let doy := doe - (365 * yoe + yoe / 4 - yoe / 100) in
  let mp := (5 * doy + 2) / 153 in
  let d := doy - (153 * mp + 2) / 5 + 1 in
  let m := if mp <? 10 then mp + 3 else mp - 9 in
  (yoe, m, d).

(** Proleptic Gregorian year, month (1..12) and day of the month of a
    day number. *)
Definition civil_from_days (day : Z) : Z * Z * Z :=
  let z := day + 719468 in
  let era := z / 146097 in
  let '(yoe, m, d) := civil_of_doe (z mod 146097) in
  (yoe + era * 400 + (if m <=? 2 then 1 else 0), m, d).

Definition digit (d : Z) : ascii := ascii_of_nat (48 + Z.to_nat d).

Fixpoint dec_aux (fuel : nat) (x : Z) (acc : string) : string :=
  match fuel with
  | O => acc
  | S f =>
      let acc' := String (digit (x mod 10)) acc in
      if x / 10 =? 0 then acc' else dec_aux f (x / 10) acc'
  end.

(** [String(x)] for an integer [x >= 0]; a number has no more decimal
    digits than binary ones. *)
Definition dec (x : Z) : string := dec_aux (S (Z.to_nat (Z.log2 x))) x "".

Fixpoint zeros (n : nat) : string :=
  match n with
  | O => ""
  | S k => String "0" (zeros k)
  end.

(** [s.padStart(n, '0')]. *)
Definition padStart (n : nat) (s : string) : string :=
  zeros (n - String.length s) ++ s.

Definition pad (n : nat) (x : Z) : string := padStart n (dec x).

(** Years 0 to 9999 print with four digits, all others with a sign and
    at least six. *)
Definition year_string (y : Z) : string :=
  if (0 <=? y) && (y <=? 9999) then pad 4 y
  else (if y <? 0 then "-" else "+") ++ pad 6 (Z.abs y).

Definition toISOString (t : Z) : string :=
  let '(y, m, d) := civil_from_days (Day t) in
  year_string y ++ "-" ++ pad 2 m ++ "-" ++ pad 2 d ++ "T"
    ++ pad 2 (HourFromTime t) ++ ":" ++ pad 2 (MinFromTime t) ++ ":"
    ++ pad 2 (SecFromTime t) ++ "." ++ pad 3 (msFromTime t) ++ "Z".

(** *** Recognising an ISO-8601 timestamp *)

Definition digit_val (c : ascii) : option Z :=
  let n := Z.of_nat (nat_of_ascii c) in
  if (48 <=? n) && (n <=? 57) then Some (n - 48) else None.

Fixpoint all_digits (s : string) : bool :=
  match s with
  | EmptyString => true
  | String c r => match digit_val c with Some _ => all_digits r | None => false end
  end.

(** Reads exactly [n] digits. *)
Fixpoint take_num (n : nat) (acc : Z) (s : string) : option (Z * string) :=
  match n with
  | O => Some (acc, s)
  | S k =>
      match s with
      | String c r =>
          match digit_val c with
          | Some d => take_num k (10 * acc + d) r
          | None => None
          end
      | EmptyString => None
      end
  end.

(** A field of [n] digits whose value lies between [lo] and [hi]. *)
Definition field (n : nat) (lo hi : Z) (s : string) : option string :=
  match take_num n 0 s with
  | Some (v, r) => if (lo <=? v) && (v <=? hi) then Some r else None
  | None => None
  end.

Definition expect (c : ascii) (s : string) : option string :=
  match s with
  | String c' r => if Ascii.eqb c c' then Some r else None
  | EmptyString => None
  end.

(** The leading digits of a string: how many, and what follows. *)
Fixpoint span_digits (s : string) : nat * string :=
  match s with
  | String c r =>
      match digit_val c with
      | Some _ => let '(n, r') := span_digits r in (S n, r')
      | None => (O, s)
      end
  | EmptyString => (O, s)
  end.

(** Four digits, or a sign and six digits or more. *)
Definition year_field (s : string) : option string :=
  match s with
  | String c r =>
      if Ascii.eqb c "+" || Ascii.eqb c "-" then
        let '(n, r') := span_digits r in
        if (6 <=? n)%nat then Some r' else None
      else
        let '(n, r') := span_digits s in
        if (n =? 4)%nat then Some r' else None
  | EmptyString => None
  end.

(** Runs the field recognisers one after the other on what is left. *)
Fixpoint parse_all (ps : list (string -> option string)) (s : string)
  : option string :=
  match ps with
  | [] => Some s
  | p :: ps' =>
      match p s with
      | Some r => parse_all ps' r
      | None => None
      end
  end.

(** [YYYY-MM-DDTHH:mm:ss.sssZ] (or the expanded-year form), with every
    field in its range and nothing after the [Z]. *)
Definition is_iso8601 (s : string) : bool :=
  match
    parse_all
      [ year_field; expect "-"; field 2 1 12; expect "-"; field 2 1 31;
        expect "T"; field 2 0 23; expect ":"; field 2 0 59; expect ":";
        field 2 0 59; expect "."; field 3 0 999; expect "Z" ] s
  with
  | Some EmptyString => true
  | _ => false
  end.

(** [P] holds of the [n] integers from [x] on. *)
Fixpoint all_from (n : nat) (x : Z) (P : Z -> bool) : bool :=
  match n with
  | O => true
  | S k => if P x then all_from k (x + 1) P else false
  end.

End Date.

(** The timestamp that a handler reads in state [s]. *)
Definition stamp (w : World) (s : State) : string :=
  Date.toISOString (clock w (ticks s)).

(** [new Date().toISOString()]: one reading of the clock. *)
Definition new_Date_toISOString : M string :=
  fun w s => (Ok (stamp w s), tick s).

(** [Date.now()]. *)
Definition Date_now : M Z := fun w s => (Ok (clock w (ticks s)), tick s).

(** [res.status(code).json(o)]: the response of the handler. *)
Definition res_status_json (code : Z) (o : value) : M Response :=
  ret (mkResponse code (to_json o)).

(** [res.json(o)]: the status code stays at its default, 200. *)
Definition res_json (o : value) : M Response := res_status_json 200 o.

(** ** examples/health-endpoints.js *)

Definition service_name : string := "Your Service Name".

(** The [checks] literal of the [/health] template. *)
Definition template_checks : Checks :=
  [("database", "ready"); ("external_api", "ready"); ("dependencies", "ready")].

Definition hasErrors (checks : Checks) : bool :=
  existsb (fun status => String.eqb status "error" || String.eqb status "failed")
    (Object_values checks).

Definition hasWarnings (checks : Checks) : bool :=
  existsb (fun status => String.eqb status "degraded" || String.eqb status "warning")
    (Object_values checks).

Definition overall_status (checks : Checks) : string :=
  if hasErrors checks then "error"
  else if hasWarnings checks then "degraded"
  else "healthy".

(** [GET /health].  [gather] stands for the evaluation of the [checks]
    literal, which the template asks to replace with actual checks; the
    template itself is [health_handler (ret template_checks)]. *)
Definition health_handler (gather : M Checks) (req : Request) : M Response :=
  try_catch
    (let! checks := gather in
     let status := overall_status checks in
     let! version := process_env "npm_package_version" in
     let! timestamp := new_Date_toISOString in
     let! environment := process_env "NODE_ENV" in
     let! up := uptime in
     res_status_json (if String.eqb status "error" then 503 else 200)
       (VObj [ ("status", VStr status);
               ("service", VStr service_name);
               ("version", VStr (or_default version "1.0.0"));
               ("timestamp", VStr timestamp);
               ("environment", VStr (or_default environment "development"));
               ("uptime", VNum up);
               ("checks", checks_value checks);
               ("notes", if String.eqb status "degraded"
                         then VStr "Some services degraded" else VNull) ]))
    (fun error =>
       let! logged_message := get_property "message" error in
       let! _ := console_error [VStr "Health check failed:"; logged_message] in
       let! timestamp := new_Date_toISOString in
       let! error_message := get_property "message" error in
       res_status_json 503
         (VObj [ ("status", VStr "error");
                 ("service", VStr service_name);
                 ("timestamp", VStr timestamp);
                 ("error", error_message) ])).

Definition isReady (checks : Checks) : bool :=
  forallb (fun status => String.eqb status "ready" || String.eqb status "not_configured")
    (Object_values checks).

(** [GET /health/readiness], for any two check functions. *)
Definition readiness_handler (checkDatabase checkDependencies : M string)
    (req : Request) : M Response :=
  try_catch
    (let! database := checkDatabase in
     let! dependencies := checkDependencies in
     let checks := [("database", database); ("dependencies", dependencies)] in
     let! timestamp := new_Date_toISOString in
     res_status_json 200
       (VObj [ ("status", VStr (if isReady checks then "ready" else "not ready"));
               ("service", VStr service_name);
               ("timestamp", VStr timestamp);
               ("checks", checks_value checks) ]))
    (fun error =>
       let! timestamp := new_Date_toISOString in
       let! error_message := get_property "message" error in
       res_status_json 200
         (VObj [ ("status", VStr "not ready");
                 ("service", VStr service_name);
                 ("timestamp", VStr timestamp);
                 ("error", error_message) ])).

(** [GET /health/liveness]. *)
Definition liveness_handler (req : Request) : M Response :=
  let! up := uptime in
  let! timestamp := new_Date_toISOString in
  res_status_json 200
    (VObj [ ("status", VStr "alive");
            ("service", VStr service_name);
            ("uptime", VNum up);
            ("timestamp", VStr timestamp) ]).

(** [checkDatabase()].  [ping] stands for the database query that the
    template leaves as a comment; the template itself is
    [checkDatabase (ret tt)]. *)
Definition checkDatabase (ping : M unit) : M string :=
  let! _ := enter_check "checkDatabase" in
  try_catch
    (let! _ := ping in
     ret "ready")
    (fun error =>
       let! error_message := get_property "message" error in
       let! _ := console_error [VStr "Database check failed:"; error_message] in
       ret "error").

(** [checkDependencies()]. *)
Definition checkDependencies : M string :=
  let! _ := enter_check "checkDependencies" in
  try_catch
    (let! api_key := process_env "API_KEY" in
     if falsy api_key then ret "not_configured" else ret "ready")
    (fun error =>
       let! error_message := get_property "message" error in
       let! _ := console_error [VStr "Dependency check failed:"; error_message] in
       ret "error").

(** ** examples/error-handlers.js *)

Definition availableEndpoints : value :=
  VObj [ ("ui", VObj [("GET /", VStr "Service information or demo UI")]);
         ("health",
          VObj [ ("GET /health", VStr "Comprehensive health check");
                 ("GET /health/readiness", VStr "Service readiness probe");
                 ("GET /health/liveness", VStr "Service liveness probe") ]);
         ("api",
          VObj [ ("POST /api/endpoint", VStr "Description of your API endpoint");
                 ("GET /api/resource", VStr "Description of your resource endpoint") ]);
         ("webhooks",
          VObj [("POST /webhook/type", VStr "Description of your webhook endpoint")]) ].

(** The 404 handler, [app.use('*', ...)]. *)
Definition not_found_handler (req : Request) : M Response :=
  let! timestamp := new_Date_toISOString in
  res_status_json 404
    (VObj [ ("error", VStr "Endpoint not found");
            ("message",
             VStr ("The endpoint " ++ method req ++ " " ++ originalUrl req
                   ++ " does not exist"));
            ("availableEndpoints", availableEndpoints);
            ("timestamp", VStr timestamp) ]).

(** What the global error handler writes to the console. *)
Definition error_log_entry (err : Error) (req : Request) (timestamp : string)
  : list value :=
  [ VStr "Unhandled server error:";
    VObj [ ("error", VStr (message err));
           ("stack", VStr (stack err));
           ("method", VStr (method req));
           ("url", VStr (originalUrl req));
           ("timestamp", VStr timestamp);
           ("userAgent", header "user-agent" req);
           ("ip", VStr (ip req)) ] ].

(** [process.env.NODE_ENV === 'production' ? req.headers['x-request-id']
    : undefined], for the value that [process.env.NODE_ENV] has. *)
Definition requestId (node_env : option string) (req : Request) : value :=
  match node_env with
  | Some e => if String.eqb e "production" then header "x-request-id" req
              else VUndefined
  | None => VUndefined
  end.

(** The global error handler, [app.use((err, req, res, next) => ...)]. *)
Definition error_handler (err : Error) (req : Request) : M Response :=
  let! logged_at := new_Date_toISOString in
  let! _ := console_error (error_log_entry err req logged_at) in
  let! timestamp := new_Date_toISOString in
  let! node_env := process_env "NODE_ENV" in
  res_status_json 500
    (VObj [ ("error", VStr "Internal Server Error");
            ("message", VStr "An unexpected error occurred");
            ("timestamp", VStr timestamp);
            ("requestId", requestId node_env req) ]).

(** An [async] function: calling it never throws; it returns a promise,
    which what its body throws rejects. *)
Definition async {A : Type} (body : M A) : M (M A) := ret body.

(** [asyncHandler(fn)], that is
    [Promise.resolve(fn(req, res, next)).catch(next)]: calling [fn]
    returns a promise, or throws; a rejection of the promise is handed
    to [next], while a throw of the call itself is not caught. *)
Definition asyncHandler (fn : Request -> M (M Response))
    (next : value -> M Response) (req : Request) : M Response :=
  let! promise := fn req in
  try_catch promise next.

(** The [async] handler of [POST /api/example], before it is wrapped. *)
Definition api_example (someAsyncOperation : M value) (req : Request)
  : M (M Response) :=
  async (let! result := someAsyncOperation in
         res_json result).

(** ** examples/server-setup.js *)

(** The constants [PORT], [SERVICE_NAME] and [startTime] of the module
    (lines 13 to 15). *)
Record Config : Type := mkConfig {
  PORT : value;
  SERVICE_NAME : string;
  startTime : Z
}.

(** The evaluation of these three constants when the module is loaded;
    the rest of the module's top level (the registration of the
    middleware and routes, [app.listen]) is not part of it. *)
Definition module_constants : M Config :=
  let! port := process_env "PORT" in
  let! name := process_env "SERVICE_NAME" in
  let! now := Date_now in
  ret (mkConfig
         (match port with
          | Some p => if String.eqb p "" then VNum (3000 # 1) else VStr p
          | None => VNum (3000 # 1)
          end)
         (or_default name "LANC Service")
         now).

(** The request logging middleware; [next()] is the rest of the
    pipeline. *)
Definition request_logger (req : Request) : M unit :=
  let! timestamp := new_Date_toISOString in
  console_log [VStr (timestamp ++ " - " ++ method req ++ " " ++ path req)].

(** The root endpoint. *)
Definition root_handler (cfg : Config) (req : Request) : M Response :=
  let! version := process_env "npm_package_version" in
  let! timestamp := new_Date_toISOString in
  let! environment := process_env "NODE_ENV" in
  res_json
    (VObj [ ("message", VStr (SERVICE_NAME cfg ++ " is running"));
            ("version", VStr (or_default version "1.0.0"));
            ("timestamp", VStr timestamp);
            ("environment", VStr (or_default environment "development")) ]).

(** [res.status(code).end()]: a response without a body. *)
Definition res_end (code : Z) : M Response := ret (mkResponse code VUndefined).

(** The application that server-setup.js assembles, with the handlers
    of health-endpoints.js and error-handlers.js in the places it
    reserves for them.  Route matching is Express's, [route_match]. *)
Section App.

Variable route_match : string -> string -> Request -> bool.
Variable cfg : Config.
Variable gather : M Checks.
Variable ping : M unit.

(** What a request goes through from the request logger on: the root
    endpoint, the health endpoints and the 404 handler, which takes every
    request that is left.  What error-handlers.js registers after
    [app.use('*', ...)], the optional logging middleware and the example
    route, is never reached and does not appear. *)
Definition routes (req : Request) : M Response :=
  let! _ := request_logger req in
  if route_match "GET" "/" req then root_handler cfg req
  else if route_match "GET" "/health" req then health_handler gather req
  else if route_match "GET" "/health/readiness" req then
    readiness_handler (checkDatabase ping) checkDependencies req
  else if route_match "GET" "/health/liveness" req then liveness_handler req
  else not_found_handler req.

(** What [express.json] and [express.urlencoded] make of the body of a
    request: [None] when they call [next()], the error that they pass to
    [next] otherwise (a body that does not parse or exceeds the
    limit). *)
Variable body_parser : Request -> option Error.

(** The whole pipeline.  [helmet] only sets headers; [cors] answers
    every [OPTIONS] request itself, with status 204 and no body, and
    passes every other request on; an error of the body parsers goes to
    the global error handler, past the logger and the routes. *)
Definition app (req : Request) : M Response :=
  if String.eqb (method req) "OPTIONS" then res_end 204
  else
    match body_parser req with
    | Some err => error_handler err req
    | None => routes req
    end.

End App.

(** A router that compares the method and the path literally. *)
Definition exact_match (m pattern : string) (req : Request) : bool :=
  String.eqb m (method req) && String.eqb pattern (path req).

(** ** examples/error-handlers.js: the optional request logging middleware *)

(** [String(n)] for an integer. *)
Definition Number_toString (n : Z) : string :=
  if (n <? 0)%Z then "-" ++ Date.dec (- n) else Date.dec n.

(** The line that the listener of the response's [finish] event
    writes. *)
Definition access_log_entry (req : Request) (r : Response) (duration : Z)
    (timestamp : string) : list value :=
  [ VObj [ ("method", VStr (method req));
           ("url", VStr (originalUrl req));
           ("statusCode", VNum (inject_Z (statusCode r)));
           ("duration", VStr (Number_toString duration ++ "ms"));
           ("userAgent", header "user-agent" req);
           ("ip", VStr (ip req));
           ("timestamp", VStr timestamp) ] ].

(** The middleware reads the clock, registers a listener on the
    response and calls [next()], the rest of the pipeline.  The listener
    runs when that pipeline has sent its response; when none is sent it
    never runs. *)
Definition timed_request_logger (next : M Response) (req : Request)
  : M Response :=
  let! start := Date_now in
  let! r := next in
  let! finished := Date_now in
  let duration := finished - start in
  let! timestamp := new_Date_toISOString in
  let! _ := console_log (access_log_entry req r duration timestamp) in
  ret r.

(** ** examples/server-setup.js: signals and uncaught errors *)

Inductive signal : Type := SIGTERM | SIGINT.

Definition signal_name (sig : signal) : string :=
  match sig with
  | SIGTERM => "SIGTERM"
  | SIGINT => "SIGINT"
  end.

(** The process as its listeners see it: the console, the callbacks
    that [server.close] has registered for the server's [close] event,
    and the exit code once [process.exit] has been called. *)
Record Process : Type := mkProcess {
  output : list (level * list value);
  close_callbacks : nat;
  exited : option Z
}.

Definition print (l : level) (args : list value) (p : Process) : Process :=
  mkProcess (output p ++ [(l, args)]) (close_callbacks p) (exited p).

Definition process_exit (code : Z) (p : Process) : Process :=
  mkProcess (output p) (close_callbacks p) (Some code).

(** [server.close(callback)]: the server stops accepting connections
    and calls back once the open ones have ended. *)
Definition server_close (p : Process) : Process :=
  mkProcess (output p) (S (close_callbacks p)) (exited p).

(** The listeners for [SIGTERM] and [SIGINT]. *)
Definition on_signal (sig : signal) (p : Process) : Process :=
  server_close
    (print Log [VStr (signal_name sig ++ " received, shutting down gracefully")] p).

(** The callback given to [server.close]. *)
Definition on_server_closed (p : Process) : Process :=
  process_exit 0 (print Log [VStr "Server closed"] p).

(** The listener for [uncaughtException]. *)
Definition on_uncaughtException (error : value) (p : Process) : Process :=
  process_exit 1 (print Err [VStr "Uncaught Exception:"; error] p).

(** The listener for [unhandledRejection]. *)
Definition on_unhandledRejection (reason promise : value) (p : Process)
  : Process :=
  process_exit 1
    (print Err [VStr "Unhandled Rejection at:"; promise; VStr "reason:"; reason] p).

(** What node delivers to these listeners. *)
Inductive event : Type :=
| Signal (sig : signal)
| ServerClosed
| UncaughtException (error : value)
| UnhandledRejection (reason promise : value).

(** A process that has exited runs nothing more; the server emits
    [close] to the callbacks registered so far, and the first of them
    exits. *)
Definition deliver (p : Process) (e : event) : Process :=
  match exited p with
  | Some _ => p
  | None =>
      match e with
      | Signal sig => on_signal sig p
      | ServerClosed =>
          match close_callbacks p with
          | O => p
          | S _ => on_server_closed p
          end
      | UncaughtException error => on_uncaughtException error p
      | UnhandledRejection reason promise => on_unhandledRejection reason promise p
      end
  end.

Definition deliver_all (p : Process) (events : list event) : Process :=
  fold_left deliver events p.

(** The process when the server has started listening. *)
Definition listening : Process := mkProcess [] 0 None.

(** ** Statements and examples *)

(** The body that the [catch] block of the readiness handler sends. *)
Definition readiness_failure (e : Error) (w : World) (s : State)
  : outcome Response * State :=
  (Ok (mkResponse 200
         (VObj [ ("status", VStr "not ready");
                 ("service", VStr service_name);
                 ("timestamp", VStr (stamp w s));
                 ("error", VStr (message e)) ])),
   tick s).

(** What the [catch] block of the health handler does with a thrown
    value. *)
Definition health_caught (v : value) (w : World) (s : State)
  : outcome Response * State :=
  if nullish v then (Throw (cannot_read "message" v), s)
  else
    let s' := logged Err [VStr "Health check failed:"; get "message" v] s in
    (Ok (mkResponse 503
           (to_json (VObj [ ("status", VStr "error");
                            ("service", VStr service_name);
                            ("timestamp", VStr (stamp w s'));
                            ("error", get "message" v) ]))),
     tick s').

(** What the [catch] block of the readiness handler does with a thrown
    value. *)
Definition readiness_caught (v : value) (w : World) (s : State)
  : outcome Response * State :=
  if nullish v then (Throw (cannot_read "message" v), tick s)
  else
    (Ok (mkResponse 200
           (to_json (VObj [ ("status", VStr "not ready");
                            ("service", VStr service_name);
                            ("timestamp", VStr (stamp w s));
                            ("error", get "message" v) ]))),
     tick s).

(** The response that a run of a handler sends, if any. *)
Definition response {S : Type} (run : outcome Response * S) : option Response :=
  match run with
  | (Ok r, _) => Some r
  | _ => None
  end.

(** The reduction rule read literally: only [error] forces an overall
    [error]. *)
Definition strict_reduction_as_stated (checks : Checks) : Prop :=
  let results := Object_values checks in
  (In "error" results -> overall_status checks = "error")
  /\ (~ In "error" results -> In "degraded" results \/ In "warning" results ->
      overall_status checks = "degraded")
  /\ (~ In "error" results -> ~ In "degraded" results -> ~ In "warning" results ->
      overall_status checks = "healthy").

(** The six check results of the data model. *)
Definition CheckResult : list string :=
  ["ready"; "not_ready"; "error"; "not_configured"; "degraded"; "warning"].

(** Readiness read literally: an execution of the readiness operation
    answers, and answers 200. *)
Definition readiness_answers_200 (cd cdep : M string) (req : Request)
    (w : World) (s : State) : Prop :=
  exists r s', readiness_handler cd cdep req w s = (Ok r, s') /\ statusCode r = 200.

(** A development process, a production process, and a first request. *)
Definition example_clock (n : nat) : Z := 1764000000000 + 250 * Z.of_nat n.

Definition development : World := mkWorld ∅ example_clock (1234 # 100).

Definition production : World :=
  mkWorld {[ "NODE_ENV" := "production" ]} example_clock (1234 # 100).

Definition start : State := mkState [] [] 0.

Definition get_nope : Request :=
  mkRequest "GET" "/nope" "/nope" ∅ "127.0.0.1".

Definition boom : Error :=
  mkError "connect ECONNREFUSED 10.0.0.5:5432"
          "Error: connect ECONNREFUSED 10.0.0.5:5432 at TCPConnectWrap.afterConnect".

(** The state in which the route handlers of [app] start: the request
    logger has read the clock and written its line. *)
Definition after_logger (req : Request) (w : World) (s : State) : State :=
  logged Log [VStr (stamp w s ++ " - " ++ method req ++ " " ++ path req)] (tick s).

(** The generic part of the error response. *)
Definition generic_error_body (timestamp : string) : list (string * value) :=
  [ ("error", VStr "Internal Server Error");
    ("message", VStr "An unexpected error occurred");
    ("timestamp", VStr timestamp) ].

(** The error response read literally: nothing but a generic message
    and a timestamp. *)
Definition only_generic_message_and_timestamp (b : value) : Prop :=
  exists timestamp, b = VObj (generic_error_body timestamp).

(** A timed-out check read literally: a check that never completes is
    recorded as [error] and the report is returned all the same. *)
Definition slow_check_recorded_as_error (ping : M unit) (req : Request)
    (w : World) (s : State) : Prop :=
  (exists s1, ping w (entered "checkDatabase" s) = (Pending, s1)) ->
  exists r s',
    readiness_handler (checkDatabase ping) checkDependencies req w s = (Ok r, s')
    /\ get "database" (get "checks" (body r)) = VStr "error".

(** Immutable configuration read literally: two processes that differ in
    their environment variables only give the same health report. *)
Definition configuration_fixed_as_stated : Prop :=
  forall checks req w w' s,
    clock w' = clock w -> process_uptime w' = process_uptime w ->
    health_handler (ret checks) req w' s = health_handler (ret checks) req w s.

Definition traced (id : string) : Request :=
  mkRequest "POST" "/api/example?dry=1" "/api/example"
    {[ "x-request-id" := id ]} "10.1.2.3".

Definition get_liveness : Request :=
  mkRequest "GET" "/health/liveness" "/health/liveness" ∅ "10.1.2.3".

Definition example_config : Config := mkConfig (VNum (3000 # 1)) "LANC Service" 0.

(** How bad an overall status is. *)
Definition severity (status : string) : nat :=
  if String.eqb status "error" then 2
  else if String.eqb status "degraded" then 1
  else 0.

(** The process whose variables set to the empty string are unset. *)
Definition unset_empty (w : World) : World :=
  mkWorld (filter (fun kv : string * string => kv.2 <> "") (env w))
    (clock w) (process_uptime w).

Definition is_signal (e : event) : bool :=
  match e with
  | Signal _ => true
  | _ => false
  end.

(** The method and path for which a key of [availableEndpoints]
    stands. *)
Definition advertises (key : string) (req : Request) : Prop :=
  key = method req ++ " " ++ path req.

(** A computation that throws errors only, never [null] or
    [undefined]. *)
Definition throws_errors {A : Type} (c : M A) : Prop :=
  forall w s, match c w s with
              | (Throw v, _) => nullish v = false
              | _ => True
              end.

(** A computation that always returns or throws. *)
Definition settles {A : Type} (c : M A) : Prop :=
  forall w s, match c w s with
              | (Pending, _) => False
              | _ => True
              end.

Definition is_fatal (e : event) : bool :=
  match e with
  | UncaughtException _ | UnhandledRejection _ _ => true
  | _ => false
  end.

(** The console line of a termination signal. *)
Definition signal_line (sig : signal) : level * list value :=
  (Log, [VStr (signal_name sig ++ " received, shutting down gracefully")]).

(** A string without a space. *)
Fixpoint no_space (s : string) : bool :=
  match s with
  | EmptyString => true
  | String c r => negb (Ascii.eqb c " ") && no_space r
  end.

(** The keys that [availableEndpoints] lists in a category. *)
Definition advertised (category : string) : list string :=
  Object_keys (get category availableEndpoints).

(** * Properties *)

(** ** Timestamps *)

Module DateFacts.
Import Date.
Local Open Scope Z_scope.

#[local] Arguments digit : simpl never.
#[local] Arguments digit_val : simpl never.
#[local] Arguments pad : simpl never.

Lemma all_from_spec (n : nat) (P : Z -> bool) :
  forall x0, all_from n x0 P = true ->
  forall x, x0 <= x < x0 + Z.of_nat n -> P x = true.
Proof.
  induction n as [|k IH]; simpl; intros x0 H x Hx; [lia|].
  destruct (P x0) eqn:Hk; [|discriminate].
  destruct (Z.eq_dec x x0) as [->|Hne]; [exact Hk|].
  apply (IH (x0 + 1)); [exact H|lia].
Qed.

(** Every day of the 400-year cycle falls in a month 1..12 on a day
    1..31. *)
Lemma civil_of_doe_range (doe : Z) :
  0 <= doe < 146097 ->
  let '(yoe, m, d) := civil_of_doe doe in
  0 <= yoe <= 399 /\ 1 <= m <= 12 /\ 1 <= d <= 31.
Proof.
  intros H. unfold civil_of_doe. cbv zeta.
  set (yoe := (doe - doe / 1460 + doe / 36524 - doe / 146096) / 365).
  set (doy := doe - (365 * yoe + yoe / 4 - yoe / 100)).
  assert (Hyoe : 0 <= yoe <= 399) by (subst yoe; Z.div_mod_to_equations; lia).
  assert (Hdoy : 0 <= doy <= 365) by (subst doy yoe; Z.div_mod_to_equations; lia).
  clearbody doy. clear H.
  set (mp := (5 * doy + 2) / 153).
  assert (Hmp : 0 <= mp <= 11) by (subst mp; Z.div_mod_to_equations; lia).
  assert (Hd : 1 <= doy - (153 * mp + 2) / 5 + 1 <= 31)
    by (subst mp; Z.div_mod_to_equations; lia).
  destruct (mp <? 10) eqn:E; lia.
Qed.

Lemma civil_from_days_range (day : Z) :
  let '(y, m, d) := civil_from_days day in 1 <= m <= 12 /\ 1 <= d <= 31.
Proof.
  unfold civil_from_days. cbv zeta.
  pose proof (civil_of_doe_range ((day + 719468) mod 146097)) as H.
  destruct (civil_of_doe ((day + 719468) mod 146097)) as [[yoe m] d].
  apply H. apply Z.mod_pos_bound. lia.
Qed.

Lemma digit_val_digit (d : Z) : 0 <= d < 10 -> digit_val (digit d) = Some d.
Proof.
  intros H.
  assert (E : d = 0 \/ d = 1 \/ d = 2 \/ d = 3 \/ d = 4 \/ d = 5 \/ d = 6
              \/ d = 7 \/ d = 8 \/ d = 9) by lia.
  repeat (destruct E as [->|E]; [reflexivity|]). subst d. reflexivity.
Qed.

Lemma all_digits_app (u v : string) :
  all_digits (u ++ v) = all_digits u && all_digits v.
Proof.
  induction u as [|c u IH]; simpl; [reflexivity|].
  destruct (digit_val c); [exact IH|reflexivity].
Qed.

Lemma length_app (u v : string) :
  String.length (u ++ v) = (String.length u + String.length v)%nat.
Proof. induction u as [|c u IH]; simpl; [reflexivity|now rewrite IH]. Qed.

Lemma all_digits_zeros (n : nat) : all_digits (zeros n) = true.
Proof. induction n as [|k IH]; [reflexivity|exact IH]. Qed.

Lemma length_zeros (n : nat) : String.length (zeros n) = n.
Proof. induction n as [|k IH]; simpl; [reflexivity|now rewrite IH]. Qed.

Lemma all_digits_dec_aux (fuel : nat) :
  forall x acc, 0 <= x -> all_digits acc = true ->
  all_digits (dec_aux fuel x acc) = true.
Proof.
  induction fuel as [|f IH]; cbn [dec_aux]; intros x acc Hx Hacc; [exact Hacc|].
  assert (Hd : all_digits (String (digit (x mod 10)) acc) = true).
  { cbn [all_digits]. rewrite digit_val_digit; [exact Hacc|]. apply Z.mod_pos_bound. lia. }
  destruct (x / 10 =? 0); [exact Hd|].
  apply IH; [|exact Hd]. apply Z.div_pos; lia.
Qed.

Lemma all_digits_pad (n : nat) (x : Z) : 0 <= x -> all_digits (pad n x) = true.
Proof.
  intros Hx. unfold pad, padStart. rewrite all_digits_app, all_digits_zeros.
  apply all_digits_dec_aux; [exact Hx|reflexivity].
Qed.

(** A number below [10^(k+1)] prints with at most [k + 1] digits. *)
Lemma length_dec_aux (fuel : nat) :
  forall k x acc, 0 <= x < 10 ^ Z.of_nat (S k) ->
  (String.length (dec_aux fuel x acc) <= S k + String.length acc)%nat.
Proof.
  induction fuel as [|f IH]; cbn [dec_aux]; intros k x acc Hx; [lia|].
  destruct (x / 10 =? 0) eqn:E; [cbn [String.length]; lia|].
  apply Z.eqb_neq in E.
  rewrite Nat2Z.inj_succ, Z.pow_succ_r in Hx by lia.
  destruct k as [|k'].
  - exfalso. apply E. apply Z.div_small. change (10 ^ Z.of_nat 0) with 1 in Hx. lia.
  - specialize (IH k' (x / 10) (String (digit (x mod 10)) acc)).
    cbn [String.length] in IH.
    assert (0 <= x / 10 < 10 ^ Z.of_nat (S k')).
    { split; [apply Z.div_pos; lia|]. apply Z.div_lt_upper_bound; lia. }
    specialize (IH H). lia.
Qed.

Lemma length_pad (n : nat) (x : Z) :
  0 <= x < 10 ^ Z.of_nat (S n) -> String.length (pad (S n) x) = S n.
Proof.
  intros Hx. unfold pad, padStart. rewrite length_app, length_zeros.
  pose proof (length_dec_aux (S (Z.to_nat (Z.log2 x))) n x "" Hx) as H.
  fold (dec x) in H. cbn [String.length] in H. lia.
Qed.

Lemma length_pad_ge (n : nat) (x : Z) : (n <= String.length (pad n x))%nat.
Proof. unfold pad, padStart. rewrite length_app, length_zeros. lia. Qed.

Lemma take_num_app (n : nat) :
  forall acc s v s' r, take_num n acc s = Some (v, s') ->
  take_num n acc (s ++ r) = Some (v, s' ++ r).
Proof.
  induction n as [|k IH]; simpl; intros acc s v s' r H.
  - now inversion H.
  - destruct s as [|c u]; [discriminate|]. simpl.
    destruct (digit_val c); [|discriminate]. now apply IH.
Qed.

(** Fields of two and three digits read back as the number printed. *)
Lemma take_num_pad2 (x : Z) :
  0 <= x < 100 -> take_num 2 0 (pad 2 x) = Some (x, "").
Proof.
  intros H.
  pose (P := fun x => match take_num 2 0 (pad 2 x) with
                      | Some (v, EmptyString) => v =? x
                      | _ => false
                      end).
  assert (HP : P x = true).
  { apply (all_from_spec 100 P 0); [vm_compute; reflexivity|lia]. }
  unfold P in HP. destruct (take_num 2 0 (pad 2 x)) as [[v [|c r]]|]; try discriminate.
  apply Z.eqb_eq in HP. now subst.
Qed.

Lemma take_num_pad3 (x : Z) :
  0 <= x < 1000 -> take_num 3 0 (pad 3 x) = Some (x, "").
Proof.
  intros H.
  pose (P := fun x => match take_num 3 0 (pad 3 x) with
                      | Some (v, EmptyString) => v =? x
                      | _ => false
                      end).
  assert (HP : P x = true).
  { apply (all_from_spec 1000 P 0); [vm_compute; reflexivity|lia]. }
  unfold P in HP. destruct (take_num 3 0 (pad 3 x)) as [[v [|c r]]|]; try discriminate.
  apply Z.eqb_eq in HP. now subst.
Qed.

Lemma field_pad2 (lo hi x : Z) (r : string) :
  0 <= x < 100 -> lo <= x <= hi -> field 2 lo hi (pad 2 x ++ r) = Some r.
Proof.
  intros Hx Hr. unfold field.
  rewrite (take_num_app 2 0 (pad 2 x) x "" r (take_num_pad2 x Hx)). simpl.
  destruct (lo <=? x) eqn:E1; destruct (x <=? hi) eqn:E2; simpl; try reflexivity; lia.
Qed.

Lemma field_pad3 (lo hi x : Z) (r : string) :
  0 <= x < 1000 -> lo <= x <= hi -> field 3 lo hi (pad 3 x ++ r) = Some r.
Proof.
  intros Hx Hr. unfold field.
  rewrite (take_num_app 3 0 (pad 3 x) x "" r (take_num_pad3 x Hx)). simpl.
  destruct (lo <=? x) eqn:E1; destruct (x <=? hi) eqn:E2; simpl; try reflexivity; lia.
Qed.

Lemma span_digits_app (u : string) (c : ascii) (r : string) :
  all_digits u = true -> digit_val c = None ->
  span_digits (u ++ String c r) = (String.length u, String c r).
Proof.
  intros Hu Hc. induction u as [|a u IH]; simpl.
  - now rewrite Hc.
  - simpl in Hu. destruct (digit_val a); [|discriminate].
    now rewrite (IH Hu).
Qed.

Lemma year_field_plain (u r : string) :
  all_digits u = true -> String.length u = 4%nat ->
  year_field (u ++ String "-" r) = Some (String "-" r).
Proof.
  intros Hd Hl. destruct u as [|c u]; [discriminate|].
  assert (Hc : Ascii.eqb c "+" || Ascii.eqb c "-" = false).
  { cbn [all_digits] in Hd. destruct (digit_val c) eqn:Ec; [|discriminate].
    destruct (Ascii.eqb_spec c "+") as [->|_]; [discriminate|].
    destruct (Ascii.eqb_spec c "-") as [->|_]; [discriminate|]. reflexivity. }
  change (String c u ++ String "-" r)%string with (String c (u ++ String "-" r)).
  unfold year_field. rewrite Hc.
  change (String c (u ++ String "-" r)) with (String c u ++ String "-" r)%string.
  rewrite span_digits_app; [rewrite Hl; reflexivity|exact Hd|reflexivity].
Qed.

Lemma year_field_signed (sign : ascii) (u r : string) :
  sign = "+"%char \/ sign = "-"%char ->
  all_digits u = true -> (6 <= String.length u)%nat ->
  year_field (String sign (u ++ String "-" r)) = Some (String "-" r).
Proof.
  intros Hs Hd Hl. unfold year_field.
  assert (Hc : Ascii.eqb sign "+" || Ascii.eqb sign "-" = true)
    by (destruct Hs as [-> | ->]; reflexivity).
  rewrite Hc, span_digits_app; [|exact Hd|reflexivity].
  apply Nat.leb_le in Hl. now rewrite Hl.
Qed.

Lemma year_field_year_string (y : Z) (r : string) :
  year_field (year_string y ++ String "-" r) = Some (String "-" r).
Proof.
  unfold year_string.
  destruct ((0 <=? y) && (y <=? 9999)) eqn:E.
  - assert (Hy : 0 <= y <= 9999) by lia.
    apply year_field_plain; [apply all_digits_pad; lia|].
    apply (length_pad 3). change (10 ^ Z.of_nat 4) with 10000. lia.
  - destruct (y <? 0);
      (apply year_field_signed;
       [auto|apply all_digits_pad; lia|apply length_pad_ge]).
Qed.

Lemma expect_here (c : ascii) (r : string) : expect c (String c r) = Some r.
Proof. simpl. now rewrite Ascii.eqb_refl. Qed.

(** [toISOString] always yields a well-formed ISO-8601 timestamp. *)
Lemma toISOString_is_iso8601 (t : Z) : is_iso8601 (toISOString t) = true.
Proof.
  unfold toISOString.
  pose proof (civil_from_days_range (Day t)) as H.
  destruct (civil_from_days (Day t)) as [[y m] d]. destruct H as [Hm Hd].
  assert (Hh : 0 <= HourFromTime t < 24) by (apply Z.mod_pos_bound; lia).
  assert (Hmin : 0 <= MinFromTime t < 60) by (apply Z.mod_pos_bound; lia).
  assert (Hsec : 0 <= SecFromTime t < 60) by (apply Z.mod_pos_bound; lia).
  assert (Hms : 0 <= msFromTime t < 1000) by (apply Z.mod_pos_bound; lia).
  unfold is_iso8601.
  change ("-" ++ ?s)%string with (String "-" s).
  cbn [parse_all].
  change (year_string y ++ "-" ++ ?s)%string with (year_string y ++ String "-" s)%string.
  rewrite year_field_year_string, expect_here.
  rewrite field_pad2 by lia.
  change ("-" ++ ?s)%string with (String "-" s). rewrite expect_here.
  rewrite field_pad2 by lia.
  change ("T" ++ ?s)%string with (String "T" s). rewrite expect_here.
  rewrite field_pad2 by lia.
  change (":" ++ ?s)%string with (String ":" s). rewrite expect_here.
  rewrite field_pad2 by lia.
  change (":" ++ ?s)%string with (String ":" s). rewrite expect_here.
  rewrite field_pad2 by lia.
  change ("." ++ ?s)%string with (String "." s). rewrite expect_here.
  rewrite field_pad3 by lia.
  reflexivity.
Qed.

Example toISOString_epoch : toISOString 0 = "1970-01-01T00:00:00.000Z"%string.
Proof. reflexivity. Qed.

Example toISOString_before_epoch :
  toISOString (-1) = "1969-12-31T23:59:59.999Z"%string.
Proof. reflexivity. Qed.

Example toISOString_leap_day :
  toISOString 1709164800000 = "2024-02-29T00:00:00.000Z"%string.
Proof. reflexivity. Qed.

Example toISOString_year_10000 :
  toISOString 253402300800000 = "+010000-01-01T00:00:00.000Z"%string.
Proof. reflexivity. Qed.

Example toISOString_latest :
  toISOString 8640000000000000 = "+275760-09-13T00:00:00.000Z"%string.
Proof. reflexivity. Qed.

Example toISOString_earliest :
  toISOString (-8640000000000000) = "-271821-04-20T00:00:00.000Z"%string.
Proof. reflexivity. Qed.

Example is_iso8601_rejects_month_13 :
  is_iso8601 "2025-13-24T16:00:00.000Z" = false.
Proof. reflexivity. Qed.

Example is_iso8601_rejects_date_only : is_iso8601 "2025-11-24" = false.
Proof. reflexivity. Qed.

End DateFacts.

(** ** The monad *)

Lemma bind_ret {A B} (a : A) (k : A -> M B) w s : bind (ret a) k w s = k a w s.
Proof. reflexivity. Qed.

Lemma bind_throw {A B} (v : value) (k : A -> M B) w s :
  bind (throw v) k w s = (Throw v, s).
Proof. reflexivity. Qed.

Lemma bind_never {A B} (k : A -> M B) w s : bind never k w s = (Pending, s).
Proof. reflexivity. Qed.

Lemma bind_assoc {A B C} (c : M A) (k : A -> M B) (h : B -> M C) w s :
  bind (bind c k) h w s = bind c (fun a => bind (k a) h) w s.
Proof. unfold bind. destruct (c w s) as [[a|e|] s1]; reflexivity. Qed.

Lemma try_catch_throw {A} (v : value) (h : value -> M A) w s :
  try_catch (throw v) h w s = h v w s.
Proof. reflexivity. Qed.

(** A [catch] block does not run while the promise awaited in the [try]
    block is pending. *)
Lemma try_catch_never {A} (h : value -> M A) w s :
  try_catch never h w s = (Pending, s).
Proof. reflexivity. Qed.

(** ** What the handlers return *)

#[local] Arguments Date.toISOString : simpl never.

Lemma to_json_checks_value (checks : Checks) :
  to_json (checks_value checks) = checks_value checks.
Proof.
  unfold checks_value. cbn [to_json]. f_equal.
  induction checks as [|[k v] l IH]; cbn [map fst snd]; [reflexivity|].
  now rewrite IH.
Qed.

(** The report of [GET /health] when the checks evaluate to [checks]. *)
Lemma health_handler_returns gather req w s checks s1 :
  gather w s = (Ok checks, s1) ->
  health_handler gather req w s
  = (Ok (mkResponse
           (if String.eqb (overall_status checks) "error" then 503 else 200)
           (VObj [ ("status", VStr (overall_status checks));
                   ("service", VStr service_name);
                   ("version", VStr (or_default (env w !! "npm_package_version") "1.0.0"));
                   ("timestamp", VStr (stamp w s1));
                   ("environment", VStr (or_default (env w !! "NODE_ENV") "development"));
                   ("uptime", VNum (process_uptime w));
                   ("checks", checks_value checks);
                   ("notes", if String.eqb (overall_status checks) "degraded"
                             then VStr "Some services degraded" else VNull) ])),
     tick s1).
Proof.
  intros H. unfold health_handler, try_catch, bind. rewrite H.
  unfold process_env, new_Date_toISOString, uptime, res_status_json, ret.
  cbn [to_json]. rewrite to_json_checks_value.
  destruct (String.eqb (overall_status checks) "degraded"); reflexivity.
Qed.

(** The report of [GET /health] when evaluating the checks throws. *)
Lemma health_handler_catches gather req w s (e : Error) s1 :
  gather w s = (Throw e, s1) ->
  health_handler gather req w s
  = (Ok (mkResponse 503
           (VObj [ ("status", VStr "error");
                   ("service", VStr service_name);
                   ("timestamp",
                    VStr (stamp w (logged Err [VStr "Health check failed:";
                                               VStr (message e)] s1)));
                   ("error", VStr (message e)) ])),
     tick (logged Err [VStr "Health check failed:"; VStr (message e)] s1)).
Proof.
  intros H. unfold health_handler, try_catch, bind. rewrite H. reflexivity.
Qed.

(** The same for any thrown value: the [catch] block itself throws when
    the value is [null] or [undefined]. *)
Lemma health_handler_catches_value gather req w s v s1 :
  gather w s = (Throw v, s1) ->
  health_handler gather req w s = health_caught v w s1.
Proof.
  intros H. unfold health_handler, try_catch, bind. rewrite H.
  unfold health_caught, get_property. destruct (nullish v); reflexivity.
Qed.

Lemma health_handler_pending gather req w s s1 :
  gather w s = (Pending, s1) -> health_handler gather req w s = (Pending, s1).
Proof.
  intros H. unfold health_handler, try_catch, bind. now rewrite H.
Qed.

(** The report of [GET /health/readiness] when both checks return. *)
Lemma readiness_handler_returns cd cdep req w s database s1 dependencies s2 :
  cd w s = (Ok database, s1) ->
  cdep w s1 = (Ok dependencies, s2) ->
  readiness_handler cd cdep req w s
  = (Ok (mkResponse 200
           (VObj [ ("status",
                    VStr (if isReady [("database", database);
                                      ("dependencies", dependencies)]
                          then "ready" else "not ready"));
                   ("service", VStr service_name);
                   ("timestamp", VStr (stamp w s2));
                   ("checks",
                    checks_value [("database", database);
                                  ("dependencies", dependencies)]) ])),
     tick s2).
Proof.
  intros H1 H2. unfold readiness_handler, try_catch, bind. rewrite H1, H2.
  reflexivity.
Qed.

Lemma readiness_handler_catches_first cd cdep req w s (e : Error) s1 :
  cd w s = (Throw e, s1) ->
  readiness_handler cd cdep req w s = readiness_failure e w s1.
Proof.
  intros H. unfold readiness_handler, try_catch, bind. now rewrite H.
Qed.

Lemma readiness_handler_catches_second cd cdep req w s database s1 (e : Error) s2 :
  cd w s = (Ok database, s1) ->
  cdep w s1 = (Throw e, s2) ->
  readiness_handler cd cdep req w s = readiness_failure e w s2.
Proof.
  intros H1 H2. unfold readiness_handler, try_catch, bind. now rewrite H1, H2.
Qed.

Lemma readiness_handler_catches_first_value cd cdep req w s v s1 :
  cd w s = (Throw v, s1) ->
  readiness_handler cd cdep req w s = readiness_caught v w s1.
Proof.
  intros H. unfold readiness_handler, try_catch, bind. rewrite H.
  unfold readiness_caught, get_property, new_Date_toISOString.
  destruct (nullish v); reflexivity.
Qed.

Lemma readiness_handler_catches_second_value cd cdep req w s database s1 v s2 :
  cd w s = (Ok database, s1) ->
  cdep w s1 = (Throw v, s2) ->
  readiness_handler cd cdep req w s = readiness_caught v w s2.
Proof.
  intros H1 H2. unfold readiness_handler, try_catch, bind. rewrite H1, H2.
  unfold readiness_caught, get_property, new_Date_toISOString.
  destruct (nullish v); reflexivity.
Qed.

Lemma readiness_handler_pending_first cd cdep req w s s1 :
  cd w s = (Pending, s1) ->
  readiness_handler cd cdep req w s = (Pending, s1).
Proof.
  intros H. unfold readiness_handler, try_catch, bind. now rewrite H.
Qed.

Lemma readiness_handler_pending_second cd cdep req w s database s1 s2 :
  cd w s = (Ok database, s1) ->
  cdep w s1 = (Pending, s2) ->
  readiness_handler cd cdep req w s = (Pending, s2).
Proof.
  intros H1 H2. unfold readiness_handler, try_catch, bind. now rewrite H1, H2.
Qed.

(** The three ways [checkDatabase] can go, by what the ping does. *)
Lemma checkDatabase_cases ping w s :
  match ping w (entered "checkDatabase" s) with
  | (Ok _, s1) => checkDatabase ping w s = (Ok "ready", s1)
  | (Throw v, s1) =>
      checkDatabase ping w s
      = if nullish v then (Throw (cannot_read "message" v), s1)
        else (Ok "error",
              logged Err [VStr "Database check failed:"; get "message" v] s1)
  | (Pending, s1) => checkDatabase ping w s = (Pending, s1)
  end.
Proof.
  unfold checkDatabase, try_catch, bind, enter_check.
  destruct (ping w (entered "checkDatabase" s)) as [[[]|v|] s1]; try reflexivity.
  unfold get_property. destruct (nullish v); reflexivity.
Qed.

Lemma checkDependencies_returns w s :
  checkDependencies w s
  = (Ok (if falsy (env w !! "API_KEY") then "not_configured" else "ready"),
     entered "checkDependencies" s).
Proof.
  unfold checkDependencies, try_catch, bind, enter_check, process_env.
  destruct (falsy (env w !! "API_KEY")); reflexivity.
Qed.

Lemma liveness_handler_returns req w s :
  liveness_handler req w s
  = (Ok (mkResponse 200
           (VObj [ ("status", VStr "alive");
                   ("service", VStr service_name);
                   ("uptime", VNum (process_uptime w));
                   ("timestamp", VStr (stamp w s)) ])),
     tick s).
Proof. reflexivity. Qed.

Lemma not_found_handler_returns req w s :
  not_found_handler req w s
  = (Ok (mkResponse 404
           (VObj [ ("error", VStr "Endpoint not found");
                   ("message",
                    VStr ("The endpoint " ++ method req ++ " " ++ originalUrl req
                          ++ " does not exist"));
                   ("availableEndpoints", availableEndpoints);
                   ("timestamp", VStr (stamp w s)) ])),
     tick s).
Proof. reflexivity. Qed.

Lemma error_handler_returns err req w s :
  error_handler err req w s
  = (Ok (mkResponse 500
           (to_json
              (VObj [ ("error", VStr "Internal Server Error");
                      ("message", VStr "An unexpected error occurred");
                      ("timestamp",
                       VStr (stamp w (logged Err (error_log_entry err req (stamp w s))
                                        (tick s))));
                      ("requestId", requestId (env w !! "NODE_ENV") req) ]))),
     tick (logged Err (error_log_entry err req (stamp w s)) (tick s))).
Proof. reflexivity. Qed.

Lemma root_handler_returns cfg req w s :
  root_handler cfg req w s
  = (Ok (mkResponse 200
           (VObj [ ("message", VStr (SERVICE_NAME cfg ++ " is running"));
                   ("version",
                    VStr (or_default (env w !! "npm_package_version") "1.0.0"));
                   ("timestamp", VStr (stamp w s));
                   ("environment",
                    VStr (or_default (env w !! "NODE_ENV") "development")) ])),
     tick s).
Proof. reflexivity. Qed.

(** The templates as they stand, in a development process. *)
Example health_template_report :
  response (health_handler (ret template_checks) get_nope development start)
  = Some (mkResponse 200
            (VObj [ ("status", VStr "healthy");
                    ("service", VStr "Your Service Name");
                    ("version", VStr "1.0.0");
                    ("timestamp", VStr "2025-11-24T16:00:00.000Z");
                    ("environment", VStr "development");
                    ("uptime", VNum (1234 # 100));
                    ("checks",
                     VObj [ ("database", VStr "ready");
                            ("external_api", VStr "ready");
                            ("dependencies", VStr "ready") ]);
                    ("notes", VNull) ])).
Proof. reflexivity. Qed.

Example readiness_template_report :
  readiness_handler (checkDatabase (ret tt)) checkDependencies get_nope
    development start
  = (Ok (mkResponse 200
           (VObj [ ("status", VStr "ready");
                   ("service", VStr "Your Service Name");
                   ("timestamp", VStr "2025-11-24T16:00:00.000Z");
                   ("checks",
                    VObj [ ("database", VStr "ready");
                           ("dependencies", VStr "not_configured") ]) ])),
     mkState [] ["checkDatabase"; "checkDependencies"] 1).
Proof. reflexivity. Qed.

Example degraded_report_has_notes :
  exists r,
    response (health_handler (ret [("database", "ready"); ("external_api", "warning")])
                get_nope development start) = Some r
    /\ statusCode r = 200
    /\ get "status" (body r) = VStr "degraded"
    /\ get "notes" (body r) = VStr "Some services degraded".
Proof. eexists. split; [reflexivity|]. repeat split; reflexivity. Qed.

(** ** The overall status *)

Lemma hasErrors_spec (checks : Checks) :
  hasErrors checks = true
  <-> In "error" (Object_values checks) \/ In "failed" (Object_values checks).
Proof.
  unfold hasErrors. rewrite existsb_exists. split.
  - intros [v [Hin Hv]]. apply orb_true_iff in Hv.
    destruct Hv as [Hv|Hv]; apply String.eqb_eq in Hv; subst; auto.
  - intros [H|H]; eexists; (split; [exact H|]); reflexivity.
Qed.

Lemma hasWarnings_spec (checks : Checks) :
  hasWarnings checks = true
  <-> In "degraded" (Object_values checks) \/ In "warning" (Object_values checks).
Proof.
  unfold hasWarnings. rewrite existsb_exists. split.
  - intros [v [Hin Hv]]. apply orb_true_iff in Hv.
    destruct Hv as [Hv|Hv]; apply String.eqb_eq in Hv; subst; auto.
  - intros [H|H]; eexists; (split; [exact H|]); reflexivity.
Qed.

(** Read literally, the rule holds of every mapping in which no check
    has the value [failed], so of every mapping over the six results
    that the data model names. *)
Lemma strict_reduction_without_failed (checks : Checks) :
  ~ In "failed" (Object_values checks) -> strict_reduction_as_stated checks.
Proof.
  intros Hnf. unfold strict_reduction_as_stated, overall_status. cbv zeta.
  pose proof (hasErrors_spec checks) as He.
  pose proof (hasWarnings_spec checks) as Hw.
  destruct (hasErrors checks); [|destruct (hasWarnings checks)].
  - assert (In "error" (Object_values checks))
      by (destruct (proj1 He eq_refl); tauto).
    repeat split; tauto.
  - pose proof (proj1 Hw eq_refl).
    assert (~ In "error" (Object_values checks))
      by (intros F; assert (false = true) by tauto; discriminate).
    repeat split; tauto.
  - assert (~ In "error" (Object_values checks))
      by (intros F; assert (false = true) by tauto; discriminate).
    assert (~ (In "degraded" (Object_values checks)
               \/ In "warning" (Object_values checks)))
      by (intros F; assert (false = true) by tauto; discriminate).
    repeat split; tauto.
Qed.

(** Outside the six results of the data model, the handler also takes
    the value [failed] for an error: alone it makes the overall status
    [error], where the rule read literally gives [healthy]. *)
Lemma strict_reduction_fails_on_failed :
  ~ strict_reduction_as_stated [("database", "failed")].
Proof.
  intros [_ [_ H]]. cbv zeta in H.
  assert (E : overall_status [("database", "failed")] = "healthy").
  { apply H; simpl; intros [E|[]]; discriminate E. }
  discriminate E.
Qed.

(** On every mapping of names to strings, the overall status is [error]
    exactly when some check is [error] or [failed]; otherwise it is
    [degraded] exactly when some check is [degraded] or [warning];
    otherwise it is [healthy].  It is the [status] of the report that
    [GET /health] returns. *)
Theorem overall_status_reduction (checks : Checks) (req : Request)
    (w : World) (s : State) :
  let results := Object_values checks in
  let failing := In "error" results \/ In "failed" results in
  let warning := In "degraded" results \/ In "warning" results in
  (overall_status checks = "error" <-> failing)
  /\ (overall_status checks = "degraded" <-> ~ failing /\ warning)
  /\ (overall_status checks = "healthy" <-> ~ failing /\ ~ warning)
  /\ (Forall (fun v => v = "ready" \/ v = "not_configured") results ->
      overall_status checks = "healthy")
  /\ exists r s',
       health_handler (ret checks) req w s = (Ok r, s')
       /\ get "status" (body r) = VStr (overall_status checks).
Proof.
  cbv zeta.
  pose proof (hasErrors_spec checks) as He.
  pose proof (hasWarnings_spec checks) as Hw.
  assert (R : (overall_status checks = "error"
               <-> In "error" (Object_values checks) \/ In "failed" (Object_values checks))
           /\ (overall_status checks = "degraded"
               <-> ~ (In "error" (Object_values checks) \/ In "failed" (Object_values checks))
                   /\ (In "degraded" (Object_values checks)
                       \/ In "warning" (Object_values checks)))
           /\ (overall_status checks = "healthy"
               <-> ~ (In "error" (Object_values checks) \/ In "failed" (Object_values checks))
                   /\ ~ (In "degraded" (Object_values checks)
                         \/ In "warning" (Object_values checks)))).
  { unfold overall_status.
    destruct (hasErrors checks) eqn:E1; [|destruct (hasWarnings checks) eqn:E2].
    - pose proof (proj1 He eq_refl). repeat split; try discriminate; tauto.
    - pose proof (proj1 Hw eq_refl).
      assert (~ (In "error" (Object_values checks) \/ In "failed" (Object_values checks)))
        by (intros F; apply He in F; discriminate F).
      repeat split; try discriminate; tauto.
    - assert (~ (In "error" (Object_values checks) \/ In "failed" (Object_values checks)))
        by (intros F; apply He in F; discriminate F).
      assert (~ (In "degraded" (Object_values checks)
                 \/ In "warning" (Object_values checks)))
        by (intros F; apply Hw in F; discriminate F).
      repeat split; try discriminate; tauto. }
  destruct R as [R1 [R2 R3]].
  split; [exact R1|]. split; [exact R2|]. split; [exact R3|]. split.
  - intros Hall. apply R3. rewrite List.Forall_forall in Hall.
    split; intros [F|F]; apply Hall in F; destruct F as [F|F]; discriminate F.
  - eexists. eexists. split.
    + apply health_handler_returns. reflexivity.
    + reflexivity.
Qed.

(** C1: on every mapping of check names to check results (the six
    results of the data model), the overall status follows the strict
    reduction: it is [error] if any check is [error]; otherwise
    [degraded] if any check is [degraded] or [warning]; otherwise
    [healthy], in particular when every check is [ready] or
    [not_configured].  It is the [status] of the report that
    [GET /health] returns. *)
Theorem strict_reduction_on_check_results (checks : Checks) (req : Request)
    (w : World) (s : State) :
  Forall (fun v => In v CheckResult) (Object_values checks) ->
  let results := Object_values checks in
  (In "error" results -> overall_status checks = "error")
  /\ (~ In "error" results -> In "degraded" results \/ In "warning" results ->
      overall_status checks = "degraded")
  /\ (~ In "error" results -> ~ In "degraded" results -> ~ In "warning" results ->
      overall_status checks = "healthy")
  /\ (Forall (fun v => v = "ready" \/ v = "not_configured") results ->
      overall_status checks = "healthy")
  /\ exists r s',
       health_handler (ret checks) req w s = (Ok r, s')
       /\ get "status" (body r) = VStr (overall_status checks).
Proof.
  intros Hdom. cbv zeta.
  assert (Hnf : ~ In "failed" (Object_values checks)).
  { intros F. rewrite List.Forall_forall in Hdom. apply Hdom in F.
    cbn in F. repeat (destruct F as [F|F]; [discriminate F|]). exact F. }
  destruct (strict_reduction_without_failed checks Hnf) as [R1 [R2 R3]].
  cbv zeta in R1, R2, R3.
  split; [exact R1|]. split; [exact R2|]. split; [exact R3|]. split.
  - intros Hall. rewrite List.Forall_forall in Hall.
    apply R3; intros F; apply Hall in F; destruct F as [F|F]; discriminate F.
  - eexists. eexists. split.
    + apply health_handler_returns. reflexivity.
    + reflexivity.
Qed.

(** C1, for the two examples of the specification. *)
Lemma strict_reduction_on_check_results_witness :
  overall_status [("database", "ready"); ("external_api", "error")] = "error"
  /\ overall_status [("database", "ready"); ("dependencies", "not_configured")]
     = "healthy".
Proof.
  split.
  - apply (strict_reduction_on_check_results
             [("database", "ready"); ("external_api", "error")]
             get_nope development start).
    + repeat constructor; cbn; tauto.
    + cbn. tauto.
  - apply (strict_reduction_on_check_results
             [("database", "ready"); ("dependencies", "not_configured")]
             get_nope development start).
    + repeat constructor; cbn; tauto.
    + repeat constructor; tauto.
Defined.

(** ** Transport status of the health report *)

(** C2: the comprehensive health operation answers 503 exactly when the
    status of its report is [error], and 200 otherwise; it answers unless
    evaluating the checks never finishes or throws [null] or
    [undefined].  The two examples of the specification evaluate as
    stated. *)
Theorem health_status_code :
  (forall gather req w s,
     match health_handler gather req w s with
     | (Ok r, _) =>
         (statusCode r = 503 /\ get "status" (body r) = VStr "error")
         \/ (statusCode r = 200 /\ get "status" (body r) <> VStr "error")
     | (Throw _, _) =>
         exists v s1, gather w s = (Throw v, s1) /\ nullish v = true
     | (Pending, _) => exists s1, gather w s = (Pending, s1)
     end)
  /\ (forall req w s,
        exists r s',
          health_handler (ret [("database", "ready"); ("external_api", "error")])
            req w s = (Ok r, s')
          /\ get "status" (body r) = VStr "error" /\ statusCode r = 503)
  /\ (forall req w s,
        exists r s',
          health_handler (ret [("database", "ready"); ("dependencies", "not_configured")])
            req w s = (Ok r, s')
          /\ get "status" (body r) = VStr "healthy" /\ statusCode r = 200).
Proof.
  split; [|split].
  - intros gather req w s.
    destruct (gather w s) as [[checks|e|] s1] eqn:G.
    + rewrite (health_handler_returns _ _ _ _ _ _ G).
      cbn [statusCode body get lookup_prop String.eqb Ascii.eqb Bool.eqb].
      destruct (String.eqb (overall_status checks) "error") eqn:E.
      * left. apply String.eqb_eq in E. now rewrite E.
      * right. split; [reflexivity|]. apply String.eqb_neq in E. congruence.
    + rewrite (health_handler_catches_value _ _ _ _ _ _ G). unfold health_caught.
      destruct (nullish e) eqn:N; [now exists e, s1|].
      left. split; reflexivity.
    + rewrite (health_handler_pending _ _ _ _ _ G). now exists s1.
  - intros req w s. eexists. eexists. split.
    + apply health_handler_returns. reflexivity.
    + split; reflexivity.
  - intros req w s. eexists. eexists. split.
    + apply health_handler_returns. reflexivity.
    + split; reflexivity.
Qed.

(** ** Readiness *)

Lemma isReady_spec (checks : Checks) :
  isReady checks = true
  <-> Forall (fun v => v = "ready" \/ v = "not_configured") (Object_values checks).
Proof.
  unfold isReady. rewrite forallb_forall, List.Forall_forall.
  split; intros H v Hin; specialize (H v Hin).
  - apply orb_true_iff in H. destruct H as [H|H]; apply String.eqb_eq in H; auto.
  - destruct H as [-> | ->]; reflexivity.
Qed.

(** C4, counterexample: the readiness operation does not answer 200 on
    every execution.  While a check never settles it sends no response at
    all, and when a check throws [undefined] its [catch] block throws in
    turn and no response is sent either. *)
Lemma readiness_without_answer :
  ~ readiness_answers_200 (ret "ready") never get_nope development start
  /\ ~ readiness_answers_200 (throw VUndefined) (ret "ready") get_nope
        development start.
Proof.
  split; intros [r [s' [H _]]]; discriminate H.
Qed.

(** C4, amended: every response of the readiness operation has status
    200, with status [ready] or [not ready] in its body, so the two differ
    in the body only.  A response is sent whenever both checks return,
    and whenever a check throws an error (then with [not ready]); none is
    sent while a check never settles.  (An exception leaves the handler
    only when a check has thrown [null] or [undefined].) *)
Theorem readiness_response_is_200 :
  (forall cd cdep req w s,
     let failing := fun (P : outcome string -> Prop) =>
       P (fst (cd w s))
       \/ (exists v s1, cd w s = (Ok v, s1) /\ P (fst (cdep w s1))) in
     match readiness_handler cd cdep req w s with
     | (Ok r, _) =>
         statusCode r = 200
         /\ (get "status" (body r) = VStr "ready"
             \/ get "status" (body r) = VStr "not ready")
     | (Throw _, _) =>
         failing (fun o => exists v, o = Throw v /\ nullish v = true)
     | (Pending, _) => failing (fun o => o = Pending)
     end)
  /\ (forall (e : Error) cdep req w s,
        exists r s',
          readiness_handler (throw e) cdep req w s = (Ok r, s')
          /\ statusCode r = 200 /\ get "status" (body r) = VStr "not ready")
  /\ (forall v (e : Error) req w s,
        exists r s',
          readiness_handler (ret v) (throw e) req w s = (Ok r, s')
          /\ statusCode r = 200 /\ get "status" (body r) = VStr "not ready")
  /\ (forall req w s,
        exists r1 s1 r2 s2,
          readiness_handler (ret "ready") (ret "ready") req w s = (Ok r1, s1)
          /\ readiness_handler (ret "error") (ret "ready") req w s = (Ok r2, s2)
          /\ get "status" (body r1) = VStr "ready"
          /\ get "status" (body r2) = VStr "not ready"
          /\ statusCode r1 = 200 /\ statusCode r2 = 200)
  /\ (forall cd cdep req w s s1,
        cd w s = (Pending, s1) ->
        readiness_handler cd cdep req w s = (Pending, s1))
  /\ (forall cd cdep req w s database s1 s2,
        cd w s = (Ok database, s1) ->
        cdep w s1 = (Pending, s2) ->
        readiness_handler cd cdep req w s = (Pending, s2)).
Proof.
  split; [|split; [|split; [|split; [|split]]]];
    [| | | |exact readiness_handler_pending_first
     |exact readiness_handler_pending_second].
  - intros cd cdep req w s. cbv zeta.
    destruct (cd w s) as [[database|v|] s1] eqn:C1.
    + destruct (cdep w s1) as [[dependencies|v|] s2] eqn:C2.
      * rewrite (readiness_handler_returns _ _ _ _ _ _ _ _ _ C1 C2).
        split; [reflexivity|].
        cbn [body get lookup_prop String.eqb Ascii.eqb Bool.eqb].
        destruct (isReady _); auto.
      * rewrite (readiness_handler_catches_second_value _ _ _ _ _ _ _ _ _ C1 C2).
        unfold readiness_caught. destruct (nullish v) eqn:N.
        -- right. exists database, s1. split; [reflexivity|].
           rewrite C2. now exists v.
        -- split; [reflexivity|]. now right.
      * rewrite (readiness_handler_pending_second _ _ _ _ _ _ _ _ C1 C2).
        right. exists database, s1. split; [reflexivity|]. now rewrite C2.
    + rewrite (readiness_handler_catches_first_value _ _ _ _ _ _ _ C1).
      unfold readiness_caught. destruct (nullish v) eqn:N.
      * left. now exists v.
      * split; [reflexivity|]. now right.
    + rewrite (readiness_handler_pending_first _ _ _ _ _ _ C1).
      now left.
  - intros e cdep req w s. eexists. eexists. split.
    + apply readiness_handler_catches_first. reflexivity.
    + split; reflexivity.
  - intros v e req w s. eexists. eexists. split.
    + eapply readiness_handler_catches_second; reflexivity.
    + split; reflexivity.
  - intros req w s. do 4 eexists. split; [|split].
    + eapply readiness_handler_returns; reflexivity.
    + eapply readiness_handler_returns; reflexivity.
    + repeat split; reflexivity.
Qed.

(** C9: when the two readiness checks return [database] and
    [dependencies], the status of the readiness body is [ready] exactly
    when both are [ready] or [not_configured], and [not ready]
    otherwise; the same holds of [isReady] on every mapping of check
    names to results. *)
Theorem readiness_status cd cdep req w s database s1 dependencies s2 :
  cd w s = (Ok database, s1) ->
  cdep w s1 = (Ok dependencies, s2) ->
  let accepted := fun v : string => v = "ready" \/ v = "not_configured" in
  exists r s',
    readiness_handler cd cdep req w s = (Ok r, s')
    /\ get "checks" (body r)
       = checks_value [("database", database); ("dependencies", dependencies)]
    /\ (get "status" (body r) = VStr "ready"
        <-> accepted database /\ accepted dependencies)
    /\ (get "status" (body r) = VStr "not ready"
        <-> ~ (accepted database /\ accepted dependencies))
    /\ (forall checks : Checks,
          (if isReady checks then "ready" else "not ready") = "ready"
          <-> Forall accepted (Object_values checks)).
Proof.
  intros C1 C2 accepted.
  eexists. eexists. split; [exact (readiness_handler_returns _ _ _ _ _ _ _ _ _ C1 C2)|].
  cbn [body get lookup_prop String.eqb Ascii.eqb Bool.eqb].
  split; [reflexivity|].
  pose proof (isReady_spec [("database", database); ("dependencies", dependencies)]) as R.
  cbn [Object_values map snd] in R.
  assert (RR : isReady [("database", database); ("dependencies", dependencies)] = true
               <-> accepted database /\ accepted dependencies).
  { rewrite R. split.
    - intros F. inversion F as [|? ? Hd F']; subst.
      inversion F' as [|? ? Hp _]; subst. now split.
    - intros [Hd Hp]. constructor; [exact Hd|]. constructor; [exact Hp|constructor]. }
  destruct (isReady [("database", database); ("dependencies", dependencies)]).
  - split; [|split].
    + split; [intros _; now apply RR|reflexivity].
    + split; [discriminate|]. intros F. exfalso. apply F. now apply RR.
    + intros checks. pose proof (isReady_spec checks) as Q.
      destruct (isReady checks); split; try reflexivity; try discriminate.
      * intros _. now apply Q.
      * intros F. apply Q in F. discriminate F.
  - assert (N : ~ (accepted database /\ accepted dependencies))
      by (intros F; apply RR in F; discriminate F).
    split; [|split].
    + split; [discriminate|]. intros F. now elim N.
    + split; [intros _; exact N|reflexivity].
    + intros checks. pose proof (isReady_spec checks) as Q.
      destruct (isReady checks); split; try reflexivity; try discriminate.
      * intros _. now apply Q.
      * intros F. apply Q in F. discriminate F.
Qed.

(** C9, at the template's checks in a process without [API_KEY]. *)
Lemma readiness_status_witness :
  exists r s',
    readiness_handler (checkDatabase (ret tt)) checkDependencies get_nope
      development start = (Ok r, s')
    /\ get "checks" (body r)
       = checks_value [("database", "ready"); ("dependencies", "not_configured")]
    /\ get "status" (body r) = VStr "ready".
Proof.
  destruct (readiness_status (checkDatabase (ret tt)) checkDependencies get_nope
              development start "ready" (entered "checkDatabase" start)
              "not_configured"
              (entered "checkDependencies" (entered "checkDatabase" start))
              eq_refl eq_refl)
    as [r [s' [H [Hc [Hs _]]]]].
  exists r, s'. split; [exact H|]. split; [exact Hc|].
  apply Hs. split; [now left|now right].
Defined.

(** ** Failures of the handler body *)

(** C10: when the body of the comprehensive-health handler throws [e1],
    or a check of the readiness handler throws [e2], the JSON body
    carries the raw message of the error in its [error] property and has
    no [checks] property. *)
Theorem handler_failure_exposes_message gather cd cdep req w s
    (e1 : Error) s1 (e2 : Error) s2 :
  gather w s = (Throw e1, s1) ->
  (cd w s = (Throw e2, s2)
   \/ exists v s0, cd w s = (Ok v, s0) /\ cdep w s0 = (Throw e2, s2)) ->
  (exists r s',
     health_handler gather req w s = (Ok r, s')
     /\ statusCode r = 503
     /\ Object_keys (body r) = ["status"; "service"; "timestamp"; "error"]
     /\ get "error" (body r) = VStr (message e1)
     /\ get "checks" (body r) = VUndefined)
  /\ (exists r s',
        readiness_handler cd cdep req w s = (Ok r, s')
        /\ statusCode r = 200
        /\ Object_keys (body r) = ["status"; "service"; "timestamp"; "error"]
        /\ get "error" (body r) = VStr (message e2)
        /\ get "checks" (body r) = VUndefined).
Proof.
  intros G C. split.
  - eexists. eexists. split; [exact (health_handler_catches _ _ _ _ _ _ G)|].
    repeat split; reflexivity.
  - destruct C as [C|[v [s0 [C1 C2]]]].
    + eexists. eexists.
      split; [exact (readiness_handler_catches_first _ _ _ _ _ _ _ C)|].
      repeat split; reflexivity.
    + eexists. eexists.
      split; [exact (readiness_handler_catches_second _ _ _ _ _ _ _ _ _ C1 C2)|].
      repeat split; reflexivity.
Qed.

(** C10, for a database connection that is refused. *)
Lemma handler_failure_exposes_message_witness :
  (exists r s',
     health_handler (throw boom) get_nope development start = (Ok r, s')
     /\ get "error" (body r) = VStr "connect ECONNREFUSED 10.0.0.5:5432")
  /\ (exists r s',
        readiness_handler (throw boom) checkDependencies get_nope development start
        = (Ok r, s')
        /\ get "error" (body r) = VStr "connect ECONNREFUSED 10.0.0.5:5432").
Proof.
  destruct (handler_failure_exposes_message (throw boom) (throw boom)
              checkDependencies get_nope development start boom start boom start
              eq_refl (or_introl eq_refl))
    as [[r [s' [H [_ [_ [He _]]]]]] [r' [s'' [H' [_ [_ [He' _]]]]]]].
  split.
  - exists r, s'. split; [exact H|exact He].
  - exists r', s''. split; [exact H'|exact He'].
Defined.

(** ** The global error handler *)

Lemma requestId_cases node_env req :
  (requestId node_env req = VUndefined
   /\ (node_env <> Some "production" \/ headers req !! "x-request-id" = None))
  \/ (exists id, requestId node_env req = VStr id
                 /\ node_env = Some "production"
                 /\ headers req !! "x-request-id" = Some id).
Proof.
  unfold requestId, header. destruct node_env as [e|].
  - destruct (String.eqb_spec e "production") as [->|Hne].
    + destruct (headers req !! "x-request-id") as [id|].
      * right. now exists id.
      * left. split; [reflexivity|now right].
    + left. split; [reflexivity|]. left. congruence.
  - left. split; [reflexivity|]. left. discriminate.
Qed.

(** The error body after [JSON.stringify]. *)
Lemma error_body_json timestamp node_env req :
  to_json (VObj (generic_error_body timestamp
                   ++ [("requestId", requestId node_env req)])%list)
  = match requestId node_env req with
    | VStr id => VObj (generic_error_body timestamp ++ [("requestId", VStr id)])%list
    | _ => VObj (generic_error_body timestamp)
    end.
Proof.
  destruct (requestId_cases node_env req) as [[-> _]|[id [-> _]]]; reflexivity.
Qed.

(** C3, counterexample: in production the response to a failed request
    that carries an [x-request-id] header has a fourth property, the
    caller's request id, so the body is not just a generic message and a
    timestamp, and the bodies sent for two errors on two such requests
    differ in more than the timestamp. *)
Lemma error_response_echoes_request_id :
  exists r r',
    response (error_handler boom (traced "req-42") production start) = Some r
    /\ response (error_handler (mkError "out of memory" "Error: out of memory")
                   (traced "req-43") production start) = Some r'
    /\ get "requestId" (body r) = VStr "req-42"
    /\ ~ only_generic_message_and_timestamp (body r)
    /\ without "timestamp" (body r) <> without "timestamp" (body r').
Proof.
  eexists. eexists. split; [reflexivity|]. split; [reflexivity|].
  split; [reflexivity|]. split.
  - intros [ts H]. vm_compute in H. discriminate H.
  - vm_compute. discriminate.
Qed.

(** C3, amended: the handler writes one console line with the message
    and stack of the error, the method and original URL of the request
    and an ISO-8601 timestamp, and answers 500 with a body made of the
    generic error category and message, a timestamp and, only when
    [NODE_ENV] is [production] and the request has an [x-request-id]
    header, that header as [requestId].  The response is the same
    whatever the error is, and for the same request at another time it
    differs in the timestamp only: neither the message nor the stack of
    the error is copied into it. *)
Theorem error_handler_does_not_leak err req w s :
  exists r s',
    error_handler err req w s = (Ok r, s')
    /\ statusCode r = 500
    /\ (exists entry logged_at,
          console s' = (console s
                        ++ [(Err, [VStr "Unhandled server error:"; entry])])%list
          /\ get "error" entry = VStr (message err)
          /\ get "stack" entry = VStr (stack err)
          /\ get "method" entry = VStr (method req)
          /\ get "url" entry = VStr (originalUrl req)
          /\ get "timestamp" entry = VStr logged_at
          /\ Date.is_iso8601 logged_at = true)
    /\ (exists timestamp,
          Date.is_iso8601 timestamp = true
          /\ (body r = VObj (generic_error_body timestamp)
              \/ exists id,
                   env w !! "NODE_ENV" = Some "production"
                   /\ headers req !! "x-request-id" = Some id
                   /\ body r = VObj (generic_error_body timestamp
                                       ++ [("requestId", VStr id)])%list))
    /\ (forall err', response (error_handler err' req w s) = Some r)
    /\ (forall err' w' t,
          env w' = env w ->
          exists r',
            response (error_handler err' req w' t) = Some r'
            /\ statusCode r' = 500
            /\ without "timestamp" (body r') = without "timestamp" (body r)).
Proof.
  eexists. eexists. split; [apply error_handler_returns|].
  cbn [statusCode body console tick logged].
  split; [reflexivity|]. split; [|split; [|split]].
  - eexists. eexists. split; [reflexivity|].
    repeat (split; [reflexivity|]). apply DateFacts.toISOString_is_iso8601.
  - eexists. split; [apply DateFacts.toISOString_is_iso8601|].
    change (VObj [("error", VStr "Internal Server Error");
                  ("message", VStr "An unexpected error occurred");
                  ("timestamp", VStr ?t); ("requestId", ?q)])
      with (VObj (generic_error_body t ++ [("requestId", q)])%list).
    rewrite error_body_json.
    destruct (requestId_cases (env w !! "NODE_ENV") req) as [[-> _]|[id [-> [E H]]]].
    + left. reflexivity.
    + right. exists id. repeat split; assumption || reflexivity.
  - intros err'. rewrite error_handler_returns. reflexivity.
  - intros err' w' t E. eexists. split; [rewrite error_handler_returns; reflexivity|].
    split; [reflexivity|]. cbn [body]. rewrite E.
    change (VObj [("error", VStr "Internal Server Error");
                  ("message", VStr "An unexpected error occurred");
                  ("timestamp", VStr ?t); ("requestId", ?q)])
      with (VObj (generic_error_body t ++ [("requestId", q)])%list).
    rewrite !error_body_json.
    destruct (requestId (env w !! "NODE_ENV") req); reflexivity.
Qed.

(** ** Routing *)

Section Routing.

Variable route_match : string -> string -> Request -> bool.
Variable cfg : Config.
Variable gather : M Checks.
Variable ping : M unit.

Lemma routes_liveness req w s :
  route_match "GET" "/" req = false ->
  route_match "GET" "/health" req = false ->
  route_match "GET" "/health/readiness" req = false ->
  route_match "GET" "/health/liveness" req = true ->
  routes route_match cfg gather ping req w s
  = liveness_handler req w (after_logger req w s).
Proof.
  intros H1 H2 H3 H4. unfold routes, bind, request_logger.
  cbn [new_Date_toISOString console_log console_write bind].
  now rewrite H1, H2, H3, H4.
Qed.

Lemma routes_not_found req w s :
  route_match "GET" "/" req = false ->
  route_match "GET" "/health" req = false ->
  route_match "GET" "/health/readiness" req = false ->
  route_match "GET" "/health/liveness" req = false ->
  routes route_match cfg gather ping req w s
  = not_found_handler req w (after_logger req w s).
Proof.
  intros H1 H2 H3 H4. unfold routes, bind, request_logger.
  cbn [new_Date_toISOString console_log console_write bind].
  now rewrite H1, H2, H3, H4.
Qed.

End Routing.

(** ** Liveness *)

(** C5: whatever the checks of the application are, and whether they
    return, throw or never settle, a request that reaches the routes and
    is routed to the liveness endpoint is answered 200 with status
    [alive] and the uptime of the process, and no dependency check is
    entered; the handler itself answers so from every state, writing
    nothing to the console. *)
Theorem liveness_alive route_match cfg gather ping req w s :
  route_match "GET" "/" req = false ->
  route_match "GET" "/health" req = false ->
  route_match "GET" "/health/readiness" req = false ->
  route_match "GET" "/health/liveness" req = true ->
  (exists r s',
     routes route_match cfg gather ping req w s = (Ok r, s')
     /\ statusCode r = 200
     /\ get "status" (body r) = VStr "alive"
     /\ get "uptime" (body r) = VNum (process_uptime w)
     /\ invoked s' = invoked s)
  /\ (forall s0,
        exists r s',
          liveness_handler req w s0 = (Ok r, s')
          /\ statusCode r = 200
          /\ Object_keys (body r) = ["status"; "service"; "uptime"; "timestamp"]
          /\ get "status" (body r) = VStr "alive"
          /\ get "uptime" (body r) = VNum (process_uptime w)
          /\ invoked s' = invoked s0
          /\ console s' = console s0).
Proof.
  intros H1 H2 H3 H4. split.
  - rewrite (routes_liveness _ _ _ _ _ _ _ H1 H2 H3 H4), liveness_handler_returns.
    eexists. eexists. split; [reflexivity|]. repeat split; reflexivity.
  - intros s0. rewrite liveness_handler_returns.
    eexists. eexists. split; [reflexivity|]. repeat split; reflexivity.
Qed.

(** C5, in an application whose health checks throw and whose database
    ping never settles. *)
Lemma liveness_alive_witness :
  exists r s',
    routes exact_match example_config (throw boom) never
      get_liveness production start = (Ok r, s')
    /\ statusCode r = 200
    /\ get "status" (body r) = VStr "alive"
    /\ invoked s' = [].
Proof.
  destruct (liveness_alive exact_match example_config (throw boom) never
              get_liveness production start
              eq_refl eq_refl eq_refl eq_refl)
    as [[r [s' [H [Hc [Hs [_ Hi]]]]]] _].
  exists r, s'. repeat split; assumption.
Defined.

(** ** Unmatched routes *)

(** C6: a request that reaches the routes and that none of them matches
    is answered 404 by the unmatched-route handler; the body names the
    request, lists the four endpoint categories (ui, health, api,
    webhooks) and carries an ISO-8601 timestamp.  The handler answers so
    for every request. *)
Theorem unmatched_route_404 route_match cfg gather ping req w s :
  route_match "GET" "/" req = false ->
  route_match "GET" "/health" req = false ->
  route_match "GET" "/health/readiness" req = false ->
  route_match "GET" "/health/liveness" req = false ->
  (exists r s' timestamp,
     routes route_match cfg gather ping req w s = (Ok r, s')
     /\ statusCode r = 404
     /\ Object_keys (body r) = ["error"; "message"; "availableEndpoints"; "timestamp"]
     /\ get "error" (body r) = VStr "Endpoint not found"
     /\ Object_keys (get "availableEndpoints" (body r))
        = ["ui"; "health"; "api"; "webhooks"]
     /\ get "timestamp" (body r) = VStr timestamp
     /\ Date.is_iso8601 timestamp = true)
  /\ (forall req0 w0 s0,
        exists r s' timestamp,
          not_found_handler req0 w0 s0 = (Ok r, s')
          /\ statusCode r = 404
          /\ Object_keys (get "availableEndpoints" (body r))
             = ["ui"; "health"; "api"; "webhooks"]
          /\ get "timestamp" (body r) = VStr timestamp
          /\ Date.is_iso8601 timestamp = true).
Proof.
  intros H1 H2 H3 H4. split.
  - rewrite (routes_not_found _ _ _ _ _ _ _ H1 H2 H3 H4), not_found_handler_returns.
    eexists. eexists. eexists. split; [reflexivity|].
    repeat (split; [reflexivity|]). apply DateFacts.toISOString_is_iso8601.
  - intros req0 w0 s0. rewrite not_found_handler_returns.
    eexists. eexists. eexists. split; [reflexivity|].
    repeat (split; [reflexivity|]). apply DateFacts.toISOString_is_iso8601.
Qed.

(** C6, for [GET /nope]. *)
Lemma unmatched_route_404_witness :
  exists r s',
    routes exact_match example_config (ret template_checks) (ret tt)
      get_nope development start = (Ok r, s')
    /\ statusCode r = 404
    /\ get "message" (body r) = VStr "The endpoint GET /nope does not exist"
    /\ Object_keys (get "availableEndpoints" (body r))
       = ["ui"; "health"; "api"; "webhooks"]
    /\ get "timestamp" (body r) = VStr "2025-11-24T16:00:00.250Z".
Proof.
  destruct (unmatched_route_404 exact_match example_config (ret template_checks)
              (ret tt) get_nope development start
              eq_refl eq_refl eq_refl eq_refl)
    as [[r [s' [ts [H [Hc [_ [_ [Hk _]]]]]]]] _].
  exists r, s'. split; [exact H|]. split; [exact Hc|].
  vm_compute in H. injection H as Hr _. subst r.
  repeat split; reflexivity.
Defined.

(** ** Checks that fail or never complete *)

(** C7, counterexample: no check runs under a timeout.  When the
    database ping never settles, [checkDatabase] never returns and the
    readiness handler never answers; nothing is recorded as [error]. *)
Lemma check_without_timeout_hangs_readiness :
  readiness_handler (checkDatabase never) checkDependencies get_nope
    development start
  = (Pending, entered "checkDatabase" start)
  /\ ~ slow_check_recorded_as_error never get_nope development start.
Proof.
  split; [reflexivity|].
  intros H. destruct H as [r [s' [H _]]].
  - now exists (entered "checkDatabase" start).
  - discriminate H.
Qed.

(** C7, amended: a check has no timeout.  A database check whose ping
    throws an error (any value but [null] and [undefined]) is caught
    inside the check and recorded as [error] for that check only: the
    other check is reported as it is, one console line is written and the
    report is returned with code 200.  A ping that returns gives
    [ready].  A ping that never settles leaves the readiness operation
    without an answer.  (When the ping throws [null] or [undefined], the
    [catch] block of the check throws in turn: nothing is recorded or
    written, and the handler answers [not ready] with the message of
    that second error and without [checks].) *)
Theorem check_failures_are_local ping req w s :
  let dependencies :=
    if falsy (env w !! "API_KEY") then "not_configured" else "ready" in
  match ping w (entered "checkDatabase" s) with
  | (Ok _, s1) =>
      exists r s',
        readiness_handler (checkDatabase ping) checkDependencies req w s = (Ok r, s')
        /\ statusCode r = 200
        /\ get "checks" (body r)
           = checks_value [("database", "ready"); ("dependencies", dependencies)]
        /\ console s' = console s1
  | (Throw v, s1) =>
      exists r s',
        readiness_handler (checkDatabase ping) checkDependencies req w s = (Ok r, s')
        /\ statusCode r = 200
        /\ get "status" (body r) = VStr "not ready"
        /\ if nullish v then
             get "checks" (body r) = VUndefined
             /\ (exists m, get "error" (body r) = VStr m)
             /\ console s' = console s1
           else
             get "checks" (body r)
             = checks_value [("database", "error"); ("dependencies", dependencies)]
             /\ console s'
                = (console s1
                   ++ [(Err, [VStr "Database check failed:"; get "message" v])])%list
  | (Pending, s1) =>
      readiness_handler (checkDatabase ping) checkDependencies req w s = (Pending, s1)
  end.
Proof.
  cbv zeta. pose proof (checkDatabase_cases ping w s) as D.
  destruct (ping w (entered "checkDatabase" s)) as [[[]|v|] s1].
  - eexists. eexists. split.
    + eapply readiness_handler_returns; [exact D|apply checkDependencies_returns].
    + repeat split; reflexivity.
  - destruct (nullish v) eqn:N.
    + eexists. eexists. split.
      * exact (readiness_handler_catches_first _ _ _ _ _ _ _ D).
      * split; [reflexivity|]. split; [reflexivity|].
        split; [reflexivity|]. split; [|reflexivity]. eexists. reflexivity.
    + eexists. eexists. split.
      * eapply readiness_handler_returns; [exact D|apply checkDependencies_returns].
      * repeat split; reflexivity.
  - now apply readiness_handler_pending_first.
Qed.

(** ** Configuration *)

(** C8, counterexample: the health handler reads [process.env.NODE_ENV]
    while it handles the request, so the same request at the same time
    is answered differently once the variable has changed. *)
Lemma environment_is_read_per_request : ~ configuration_fixed_as_stated.
Proof.
  intros H.
  specialize (H template_checks get_nope development production start eq_refl eq_refl).
  vm_compute in H. discriminate H.
Qed.

(** C8, amended: the service name is read once, when the server module
    is loaded, and a later change of [SERVICE_NAME] changes no response;
    the version string and the environment label are read from the
    process environment while each request is handled, so the root,
    health and error responses follow the values they have then. *)
Theorem configuration_reads w0 s0 :
  exists cfg s0',
    module_constants w0 s0 = (Ok cfg, s0')
    /\ SERVICE_NAME cfg = or_default (env w0 !! "SERVICE_NAME") "LANC Service"
    /\ forall req w s,
         (exists r s',
            root_handler cfg req w s = (Ok r, s')
            /\ get "message" (body r)
               = VStr (or_default (env w0 !! "SERVICE_NAME") "LANC Service"
                       ++ " is running")
            /\ get "version" (body r)
               = VStr (or_default (env w !! "npm_package_version") "1.0.0")
            /\ get "environment" (body r)
               = VStr (or_default (env w !! "NODE_ENV") "development"))
         /\ (forall checks,
               exists r s',
                 health_handler (ret checks) req w s = (Ok r, s')
                 /\ get "service" (body r) = VStr service_name
                 /\ get "version" (body r)
                    = VStr (or_default (env w !! "npm_package_version") "1.0.0")
                 /\ get "environment" (body r)
                    = VStr (or_default (env w !! "NODE_ENV") "development"))
         /\ (forall err,
               exists r s',
                 error_handler err req w s = (Ok r, s')
                 /\ get "requestId" (body r) = requestId (env w !! "NODE_ENV") req).
Proof.
  eexists. eexists. split; [reflexivity|]. split; [reflexivity|].
  intros req w s. split; [|split].
  - rewrite root_handler_returns. eexists. eexists. split; [reflexivity|].
    repeat split; reflexivity.
  - intros checks. eexists. eexists. split.
    + apply health_handler_returns. reflexivity.
    + repeat split; reflexivity.
  - intros err. rewrite error_handler_returns. eexists. eexists.
    split; [reflexivity|]. cbn [body].
    change (VObj [("error", VStr "Internal Server Error");
                  ("message", VStr "An unexpected error occurred");
                  ("timestamp", VStr ?t); ("requestId", ?q)])
      with (VObj (generic_error_body t ++ [("requestId", q)])%list).
    rewrite error_body_json.
    destruct (requestId_cases (env w !! "NODE_ENV") req) as [[-> _]|[id [-> _]]];
      reflexivity.
Qed.

(** * Further properties of the templates *)

(** ** Aggregation *)

Lemma hasErrors_app (a b : Checks) :
  hasErrors (a ++ b)%list = hasErrors a || hasErrors b.
Proof. unfold hasErrors, Object_values. now rewrite map_app, existsb_app. Qed.

Lemma hasWarnings_app (a b : Checks) :
  hasWarnings (a ++ b)%list = hasWarnings a || hasWarnings b.
Proof. unfold hasWarnings, Object_values. now rewrite map_app, existsb_app. Qed.

Lemma isReady_app (a b : Checks) : isReady (a ++ b)%list = isReady a && isReady b.
Proof. unfold isReady, Object_values. now rewrite map_app, forallb_app. Qed.

Lemma existsb_Permutation {A} (f : A -> bool) (l l' : list A) :
  Permutation l l' -> existsb f l = existsb f l'.
Proof.
  induction 1 as [|x l l' _ IH|x y l|l l' l'' _ IH1 _ IH2]; simpl.
  - reflexivity.
  - now rewrite IH.
  - destruct (f x), (f y); reflexivity.
  - now rewrite IH1.
Qed.

Lemma forallb_Permutation {A} (f : A -> bool) (l l' : list A) :
  Permutation l l' -> forallb f l = forallb f l'.
Proof.
  induction 1 as [|x l l' _ IH|x y l|l l' l'' _ IH1 _ IH2]; simpl.
  - reflexivity.
  - now rewrite IH.
  - destruct (f x), (f y); reflexivity.
  - now rewrite IH1.
Qed.

(** X1: the overall status of two groups of checks taken together is the
    worse of their two overall statuses, so adding checks to a report
    never improves its status. *)
Theorem overall_status_app (a b : Checks) :
  overall_status (a ++ b)%list
  = (if (severity (overall_status b) <=? severity (overall_status a))%nat
     then overall_status a else overall_status b)
  /\ (severity (overall_status a) <= severity (overall_status (a ++ b)%list))%nat
  /\ (severity (overall_status b) <= severity (overall_status (a ++ b)%list))%nat.
Proof.
  unfold overall_status. rewrite hasErrors_app, hasWarnings_app.
  destruct (hasErrors a), (hasErrors b), (hasWarnings a), (hasWarnings b);
    repeat split; cbn; lia.
Qed.

(** X2: the overall status and the readiness of a mapping do not depend
    on the order in which its checks are listed. *)
Theorem aggregation_ignores_order (a b : Checks) :
  Permutation a b ->
  overall_status a = overall_status b /\ isReady a = isReady b.
Proof.
  intros H.
  assert (Hv : Permutation (Object_values a) (Object_values b))
    by (unfold Object_values; now apply Permutation_map).
  unfold overall_status, hasErrors, hasWarnings, isReady.
  rewrite (existsb_Permutation _ _ _ Hv), (existsb_Permutation _ _ _ Hv),
    (forallb_Permutation _ _ _ Hv).
  split; reflexivity.
Qed.

(** X2, for two checks listed in either order. *)
Lemma aggregation_ignores_order_witness :
  overall_status [("database", "warning"); ("external_api", "failed")]
  = overall_status [("external_api", "failed"); ("database", "warning")]
  /\ isReady [("database", "warning"); ("external_api", "failed")]
     = isReady [("external_api", "failed"); ("database", "warning")].
Proof.
  apply (aggregation_ignores_order
           [("database", "warning"); ("external_api", "failed")]
           [("external_api", "failed"); ("database", "warning")]).
  apply perm_swap.
Defined.

(** X3: checks that make an instance ready give a healthy report,
    answered 200; checks that make the report an error make the
    instance not ready. *)
Theorem ready_checks_are_healthy (checks : Checks) (req : Request)
    (w : World) (s : State) :
  isReady checks = true ->
  overall_status checks = "healthy"
  /\ hasErrors checks = false
  /\ exists r s',
       health_handler (ret checks) req w s = (Ok r, s')
       /\ statusCode r = 200
       /\ get "status" (body r) = VStr "healthy"
       /\ get "notes" (body r) = VNull.
Proof.
  intros H. apply isReady_spec in H. rewrite List.Forall_forall in H.
  assert (He : hasErrors checks = false).
  { destruct (hasErrors checks) eqn:E; [|reflexivity].
    apply hasErrors_spec in E.
    destruct E as [E|E]; apply H in E; destruct E as [E|E]; discriminate E. }
  assert (Hw : hasWarnings checks = false).
  { destruct (hasWarnings checks) eqn:E; [|reflexivity].
    apply hasWarnings_spec in E.
    destruct E as [E|E]; apply H in E; destruct E as [E|E]; discriminate E. }
  assert (Hs : overall_status checks = "healthy")
    by (unfold overall_status; now rewrite He, Hw).
  split; [exact Hs|]. split; [exact He|].
  eexists. eexists. split; [apply health_handler_returns; reflexivity|].
  rewrite Hs. repeat split; reflexivity.
Qed.

(** X3, for a database that is ready and an API key that is not
    configured. *)
Lemma ready_checks_are_healthy_witness :
  overall_status [("database", "ready"); ("dependencies", "not_configured")]
  = "healthy".
Proof.
  apply (ready_checks_are_healthy
           [("database", "ready"); ("dependencies", "not_configured")]
           get_nope development start eq_refl).
Defined.

(** The converse fails: a check that is [not_ready] leaves the report
    healthy and the instance not ready. *)
Example healthy_but_not_ready :
  overall_status [("database", "not_ready")] = "healthy"
  /\ isReady [("database", "not_ready")] = false.
Proof. split; reflexivity. Qed.

(** ** Containment of failures *)

Lemma routes_dispatch route_match cfg gather ping req w s :
  routes route_match cfg gather ping req w s
  = (if route_match "GET" "/" req then root_handler cfg req
     else if route_match "GET" "/health" req then health_handler gather req
     else if route_match "GET" "/health/readiness" req then
       readiness_handler (checkDatabase ping) checkDependencies req
     else if route_match "GET" "/health/liveness" req then liveness_handler req
     else not_found_handler req) w (after_logger req w s).
Proof. reflexivity. Qed.

(** How the health handler can end. *)
Lemma health_outcome gather req w s :
  match health_handler gather req w s with
  | (Ok r, _) => statusCode r = 200 \/ statusCode r = 503
  | (Throw _, _) => exists v s1, gather w s = (Throw v, s1) /\ nullish v = true
  | (Pending, _) => exists s1, gather w s = (Pending, s1)
  end.
Proof.
  destruct (gather w s) as [[checks|v|] s1] eqn:G.
  - rewrite (health_handler_returns _ _ _ _ _ _ G). cbn [statusCode].
    destruct (String.eqb _ "error"); auto.
  - rewrite (health_handler_catches_value _ _ _ _ _ _ G). unfold health_caught.
    destruct (nullish v) eqn:N; [now exists v, s1|now right].
  - rewrite (health_handler_pending _ _ _ _ _ G). now exists s1.
Qed.

(** How the readiness handler can end with the checks of the template:
    the error that the [catch] block of [checkDatabase] may raise is an
    object, which the [catch] block of the handler can read. *)
Lemma template_readiness_outcome ping req w s :
  match readiness_handler (checkDatabase ping) checkDependencies req w s with
  | (Ok r, _) => statusCode r = 200
  | (Throw _, _) => False
  | (Pending, _) => exists s1, ping w (entered "checkDatabase" s) = (Pending, s1)
  end.
Proof.
  pose proof (checkDatabase_cases ping w s) as D.
  destruct (ping w (entered "checkDatabase" s)) as [[[]|v|] s1].
  - now rewrite (readiness_handler_returns _ _ _ _ _ _ _ _ _ D
                   (checkDependencies_returns w s1)).
  - destruct (nullish v).
    + now rewrite (readiness_handler_catches_first _ _ _ _ _ _ _ D).
    + now rewrite (readiness_handler_returns _ _ _ _ _ _ _ _ _ D
                     (checkDependencies_returns w _)).
  - rewrite (readiness_handler_pending_first _ _ _ _ _ _ D). now exists s1.
Qed.

(** X4: every response of the assembled application has status 200,
    204, 404, 500 or 503.  An exception escapes it only from the health
    handler, when evaluating the checks throws [null] or [undefined];
    it gives no answer only while the checks of the health handler or
    the database ping stay pending. *)
Theorem app_contains_failures route_match cfg gather ping body_parser req w s :
  match app route_match cfg gather ping body_parser req w s with
  | (Ok r, _) => In (statusCode r) [200; 204; 404; 500; 503]
  | (Throw _, _) =>
      route_match "GET" "/" req = false
      /\ route_match "GET" "/health" req = true
      /\ exists v s1,
           gather w (after_logger req w s) = (Throw v, s1) /\ nullish v = true
  | (Pending, _) =>
      (exists s1, gather w (after_logger req w s) = (Pending, s1))
      \/ (exists s1,
            ping w (entered "checkDatabase" (after_logger req w s)) = (Pending, s1))
  end.
Proof.
  unfold app. destruct (String.eqb (method req) "OPTIONS").
  { cbn. auto. }
  destruct (body_parser req) as [err|].
  { rewrite error_handler_returns. cbn. auto. }
  rewrite routes_dispatch.
  destruct (route_match "GET" "/" req).
  { rewrite root_handler_returns. cbn. auto. }
  destruct (route_match "GET" "/health" req).
  { pose proof (health_outcome gather req w (after_logger req w s)) as H.
    destruct (health_handler gather req w (after_logger req w s)) as [[r|v|] s'].
    - destruct H as [-> | ->]; cbn; auto 6.
    - auto.
    - now left. }
  destruct (route_match "GET" "/health/readiness" req).
  { pose proof (template_readiness_outcome ping req w (after_logger req w s)) as H.
    destruct (readiness_handler (checkDatabase ping) checkDependencies req w
                (after_logger req w s)) as [[r|v|] s'].
    - rewrite H. cbn. auto.
    - destruct H.
    - now right. }
  destruct (route_match "GET" "/health/liveness" req).
  { rewrite liveness_handler_returns. cbn. auto. }
  rewrite not_found_handler_returns. cbn. auto.
Qed.

(** X5: when the checks of the health handler and the database ping
    always return or throw, and the checks never throw [null] or
    [undefined], the assembled application sends a response to every
    request, in every process. *)
Theorem app_always_answers route_match cfg gather ping body_parser req w s :
  settles gather -> settles ping -> throws_errors gather ->
  exists r s', app route_match cfg gather ping body_parser req w s = (Ok r, s').
Proof.
  intros Hg Hp He. unfold app. destruct (String.eqb (method req) "OPTIONS").
  { eexists. eexists. reflexivity. }
  destruct (body_parser req) as [err|].
  { rewrite error_handler_returns. eexists. eexists. reflexivity. }
  rewrite routes_dispatch.
  destruct (route_match "GET" "/" req).
  { rewrite root_handler_returns. eexists. eexists. reflexivity. }
  destruct (route_match "GET" "/health" req).
  { pose proof (health_outcome gather req w (after_logger req w s)) as H.
    specialize (Hg w (after_logger req w s)).
    specialize (He w (after_logger req w s)).
    destruct (health_handler gather req w (after_logger req w s)) as [[r|v|] s'].
    - now exists r, s'.
    - destruct H as [v' [s1 [G N]]]. rewrite G in He. congruence.
    - destruct H as [s1 G]. rewrite G in Hg. destruct Hg. }
  destruct (route_match "GET" "/health/readiness" req).
  { pose proof (template_readiness_outcome ping req w (after_logger req w s)) as H.
    specialize (Hp w (entered "checkDatabase" (after_logger req w s))).
    destruct (readiness_handler (checkDatabase ping) checkDependencies req w
                (after_logger req w s)) as [[r|v|] s'].
    - now exists r, s'.
    - destruct H.
    - destruct H as [s1 G]. rewrite G in Hp. destruct Hp. }
  destruct (route_match "GET" "/health/liveness" req).
  { rewrite liveness_handler_returns. eexists. eexists. reflexivity. }
  rewrite not_found_handler_returns. eexists. eexists. reflexivity.
Qed.

(** X5, for checks that throw an error and a database that answers. *)
Lemma app_always_answers_witness :
  exists r s',
    app exact_match example_config (throw boom) (ret tt) (fun _ => None)
      (traced "req-42") production start = (Ok r, s').
Proof.
  apply (app_always_answers exact_match example_config (throw boom) (ret tt)
           (fun _ => None) (traced "req-42") production start);
    intros w s; exact I || reflexivity.
Defined.

(** ** Wrapping an asynchronous handler *)

(** X6: the handler that [asyncHandler] makes of the [async] handler of
    the example route, called on its own, sends on the result of the
    operation as it is, with status 200, and hands an error that the
    operation throws to [next]; when [next] passes it to the global error
    handler, the error is written to the console and answered 500 with
    the generic body.  Around a handler whose call itself throws,
    [asyncHandler] catches nothing: the exception leaves the wrapper and
    [next] is not called. *)
Theorem async_route_outcomes op (next : value -> M Response) req w s
    (e : Error) s1 :
  op w s = (Throw e, s1) ->
  next e = error_handler e req ->
  (exists r s',
     asyncHandler (api_example op) next req w s = (Ok r, s')
     /\ statusCode r = 500
     /\ get "error" (body r) = VStr "Internal Server Error"
     /\ get "message" (body r) = VStr "An unexpected error occurred"
     /\ console s'
        = (console s1 ++ [(Err, error_log_entry e req (stamp w s1))])%list)
  /\ (forall op' result s2,
        op' w s = (Ok result, s2) ->
        asyncHandler (api_example op') next req w s
        = (Ok (mkResponse 200 (to_json result)), s2))
  /\ (forall (fn : Request -> M (M Response)) v s2,
        fn req w s = (Throw v, s2) ->
        asyncHandler fn next req w s = (Throw v, s2)).
Proof.
  intros Hop Hnext. split; [|split].
  - unfold asyncHandler, api_example, async, try_catch, bind, ret.
    rewrite Hop, Hnext, error_handler_returns.
    eexists. eexists. split; [reflexivity|]. cbn [statusCode body].
    change (VObj [("error", VStr "Internal Server Error");
                  ("message", VStr "An unexpected error occurred");
                  ("timestamp", VStr ?t); ("requestId", ?q)])
      with (VObj (generic_error_body t ++ [("requestId", q)])%list).
    rewrite error_body_json.
    destruct (requestId (env w !! "NODE_ENV") req); repeat split; reflexivity.
  - intros op' result s2 H.
    unfold asyncHandler, api_example, async, try_catch, bind, ret. now rewrite H.
  - intros fn v s2 H. unfold asyncHandler, bind. now rewrite H.
Qed.

(** X6, for an operation that fails with a refused connection. *)
Lemma async_route_outcomes_witness :
  exists r s',
    asyncHandler (api_example (throw boom))
      (fun _ => error_handler boom (traced "req-42")) (traced "req-42")
      development start = (Ok r, s')
    /\ statusCode r = 500
    /\ get "message" (body r) = VStr "An unexpected error occurred".
Proof.
  destruct (async_route_outcomes (throw boom)
              (fun _ => error_handler boom (traced "req-42")) (traced "req-42")
              development start boom start eq_refl eq_refl)
    as [[r [s' [H [Hc [_ [Hm _]]]]]] _].
  now exists r, s'.
Defined.

(** ** The access log *)

(** X8: a request that is not an [OPTIONS] request, whose body the
    parsers accept and that goes to an endpoint without checks (the root
    endpoint, the liveness probe, an unknown path) adds exactly one line
    to the console, on the standard output: an ISO-8601 timestamp, the
    method and the path of the request, without its query string. *)
Theorem access_log_line route_match cfg gather ping body_parser req w s :
  String.eqb (method req) "OPTIONS" = false ->
  body_parser req = None ->
  route_match "GET" "/health" req = false ->
  route_match "GET" "/health/readiness" req = false ->
  exists r s',
    app route_match cfg gather ping body_parser req w s = (Ok r, s')
    /\ console s'
       = (console s
          ++ [(Log, [VStr (stamp w s ++ " - " ++ method req ++ " " ++ path req)])])%list
    /\ Date.is_iso8601 (stamp w s) = true
    /\ invoked s' = invoked s.
Proof.
  intros Hm Hb H2 H3. unfold app. rewrite Hm, Hb, routes_dispatch, H2, H3.
  destruct (route_match "GET" "/" req);
    [|destruct (route_match "GET" "/health/liveness" req)];
    eexists; eexists; (split; [reflexivity|]);
    (split; [reflexivity|]);
    (split; [apply DateFacts.toISOString_is_iso8601|reflexivity]).
Qed.

(** X8, for [GET /nope]. *)
Lemma access_log_line_witness :
  exists r s',
    app exact_match example_config (ret template_checks) (ret tt) (fun _ => None)
      get_nope development start = (Ok r, s')
    /\ console s' = [(Log, [VStr "2025-11-24T16:00:00.000Z - GET /nope"])].
Proof.
  destruct (access_log_line exact_match example_config (ret template_checks)
              (ret tt) (fun _ => None) get_nope development start
              eq_refl eq_refl eq_refl eq_refl)
    as [r [s' [H [Hc _]]]].
  exists r, s'. split; [exact H|exact Hc].
Defined.

(** ** The checks of the readiness template *)

(** X9: [checkDependencies] never throws, never answers [error] and
    writes nothing to the console: it returns [not_configured] exactly
    when [API_KEY] is unset or empty, and [ready] otherwise. *)
Theorem checkDependencies_result (w : World) (s : State) :
  exists v,
    checkDependencies w s = (Ok v, entered "checkDependencies" s)
    /\ (v = "not_configured"
        <-> env w !! "API_KEY" = None \/ env w !! "API_KEY" = Some "")
    /\ (v = "ready" <-> exists key, env w !! "API_KEY" = Some key /\ key <> "").
Proof.
  rewrite checkDependencies_returns. eexists. split; [reflexivity|].
  unfold falsy. destruct (env w !! "API_KEY") as [key|].
  - destruct (String.eqb_spec key "") as [->|Hne].
    + split.
      * split; [intros _; now right|reflexivity].
      * split; [discriminate|]. intros [k [E Hk]]. congruence.
    + split.
      * split; [discriminate|]. intros [E|E]; congruence.
      * split; [intros _; now exists key|reflexivity].
  - split.
    + split; [intros _; now left|reflexivity].
    + split; [discriminate|]. intros [k [E _]]. discriminate E.
Qed.

(** X10: with the two checks of the template, the readiness operation
    answers 200 whenever the database ping settles, whatever it throws:
    the instance is [ready] exactly when the ping returns, whether an API
    key is configured or not.  When the ping throws an error, the body
    has [checks] and no [error]: the message of the error is written to
    the console only.  When it throws [null] or [undefined], the body has
    [error] and no [checks]. *)
Theorem template_readiness_hides_errors ping req w s :
  match ping w (entered "checkDatabase" s) with
  | (Ok _, _) =>
      exists r s',
        readiness_handler (checkDatabase ping) checkDependencies req w s = (Ok r, s')
        /\ statusCode r = 200
        /\ Object_keys (body r) = ["status"; "service"; "timestamp"; "checks"]
        /\ get "status" (body r) = VStr "ready"
  | (Throw v, _) =>
      exists r s',
        readiness_handler (checkDatabase ping) checkDependencies req w s = (Ok r, s')
        /\ statusCode r = 200
        /\ get "status" (body r) = VStr "not ready"
        /\ Object_keys (body r)
           = if nullish v then ["status"; "service"; "timestamp"; "error"]
             else ["status"; "service"; "timestamp"; "checks"]
  | (Pending, s1) =>
      readiness_handler (checkDatabase ping) checkDependencies req w s = (Pending, s1)
  end.
Proof.
  pose proof (checkDatabase_cases ping w s) as D.
  destruct (ping w (entered "checkDatabase" s)) as [[[]|v|] s1].
  - eexists. eexists. split.
    + eapply readiness_handler_returns; [exact D|apply checkDependencies_returns].
    + split; [reflexivity|]. split; [reflexivity|].
      cbn [body get lookup_prop String.eqb Ascii.eqb Bool.eqb].
      destruct (falsy (env w !! "API_KEY")); reflexivity.
  - destruct (nullish v).
    + eexists. eexists. split.
      * exact (readiness_handler_catches_first _ _ _ _ _ _ _ D).
      * repeat split; reflexivity.
    + eexists. eexists. split.
      * eapply readiness_handler_returns; [exact D|apply checkDependencies_returns].
      * repeat split; reflexivity.
  - now apply readiness_handler_pending_first.
Qed.

(** X11: the readiness handler awaits its checks one after the other:
    the dependency check is entered once the database check has
    returned, and it is never entered when the database ping stays
    pending, nor when the database check itself throws. *)
Theorem readiness_checks_in_sequence ping req w s :
  match ping w (entered "checkDatabase" s) with
  | (Pending, s1) =>
      snd (readiness_handler (checkDatabase ping) checkDependencies req w s) = s1
  | (Throw v, s1) =>
      invoked (snd (readiness_handler (checkDatabase ping) checkDependencies req w s))
      = if nullish v then invoked s1
        else (invoked s1 ++ ["checkDependencies"])%list
  | (Ok _, s1) =>
      invoked (snd (readiness_handler (checkDatabase ping) checkDependencies req w s))
      = (invoked s1 ++ ["checkDependencies"])%list
  end
  /\ invoked (entered "checkDatabase" s) = (invoked s ++ ["checkDatabase"])%list.
Proof.
  split; [|reflexivity].
  pose proof (checkDatabase_cases ping w s) as D.
  destruct (ping w (entered "checkDatabase" s)) as [[[]|v|] s1].
  - erewrite readiness_handler_returns; [|exact D|apply checkDependencies_returns].
    reflexivity.
  - destruct (nullish v).
    + now rewrite (readiness_handler_catches_first _ _ _ _ _ _ _ D).
    + erewrite readiness_handler_returns; [|exact D|apply checkDependencies_returns].
      reflexivity.
  - now rewrite (readiness_handler_pending_first _ _ _ _ _ _ D).
Qed.

(** ** The constants of the server module *)

(** X12: evaluating the three constants of the server module never fails
    and reads the clock once.  An unset or empty [PORT] gives the number
    3000, any other value is kept as the string it is; an unset or empty
    [SERVICE_NAME] gives "LANC Service", so the service name is never
    empty. *)
Theorem module_constants_defaults (w : World) (s : State) :
  exists cfg,
    module_constants w s = (Ok cfg, tick s)
    /\ startTime cfg = clock w (ticks s)
    /\ (PORT cfg = VNum (3000 # 1)
        <-> env w !! "PORT" = None \/ env w !! "PORT" = Some "")
    /\ (forall p, env w !! "PORT" = Some p -> p <> "" -> PORT cfg = VStr p)
    /\ (SERVICE_NAME cfg = "LANC Service"
        \/ (env w !! "SERVICE_NAME" = Some (SERVICE_NAME cfg)))
    /\ SERVICE_NAME cfg <> "".
Proof.
  eexists. split; [reflexivity|]. cbn [PORT SERVICE_NAME startTime].
  split; [reflexivity|]. split; [|split; [|split]].
  - destruct (env w !! "PORT") as [p|].
    + destruct (String.eqb_spec p "") as [->|Hne].
      * split; [intros _; now right|reflexivity].
      * split; [discriminate|]. intros [E|E]; congruence.
    + split; [intros _; now left|reflexivity].
  - intros p E Hne. rewrite E.
    destruct (String.eqb_spec p "") as [->|_]; [now elim Hne|reflexivity].
  - unfold or_default. destruct (env w !! "SERVICE_NAME") as [n|]; [|now left].
    destruct (String.eqb n ""); [now left|now right].
  - unfold or_default. destruct (env w !! "SERVICE_NAME") as [n|]; [|discriminate].
    destruct (String.eqb_spec n ""); [discriminate|assumption].
Qed.

(** ** Empty environment variables *)

Lemma lookup_unset_empty (w : World) (name : string) :
  env (unset_empty w) !! name
  = match env w !! name with
    | Some v => if String.eqb v "" then None else Some v
    | None => None
    end.
Proof.
  unfold unset_empty. cbn [env].
  destruct (env w !! name) as [v|] eqn:E.
  - destruct (String.eqb_spec v "") as [->|Hne].
    + apply map_lookup_filter_None. right. intros x Hx. cbn.
      rewrite E in Hx. injection Hx as <-. auto.
    + apply map_lookup_filter_Some. split; [exact E|exact Hne].
  - apply map_lookup_filter_None. now left.
Qed.

Lemma or_default_unset_empty w name d :
  or_default (env (unset_empty w) !! name) d = or_default (env w !! name) d.
Proof.
  rewrite lookup_unset_empty. unfold or_default.
  destruct (env w !! name) as [v|]; [|reflexivity].
  destruct (String.eqb v "") eqn:E; [reflexivity|]. now rewrite E.
Qed.

Lemma falsy_unset_empty w name :
  falsy (env (unset_empty w) !! name) = falsy (env w !! name).
Proof.
  rewrite lookup_unset_empty. unfold falsy.
  destruct (env w !! name) as [v|]; [|reflexivity].
  destruct (String.eqb v "") eqn:E; [reflexivity|exact E].
Qed.

Lemma requestId_unset_empty w req :
  requestId (env (unset_empty w) !! "NODE_ENV") req
  = requestId (env w !! "NODE_ENV") req.
Proof.
  rewrite lookup_unset_empty. unfold requestId.
  destruct (env w !! "NODE_ENV") as [v|]; [|reflexivity].
  destruct (String.eqb_spec v "") as [->|_]; reflexivity.
Qed.

Lemma stamp_unset_empty w s : stamp (unset_empty w) s = stamp w s.
Proof. reflexivity. Qed.

(** X13: a variable set to the empty string counts as unset everywhere:
    evaluating the constants of the server module, the root endpoint,
    the health report, the dependency check and the error handler all
    behave in a process as they do in the same process with its empty
    variables removed. *)
Theorem empty_variables_count_as_unset w s req cfg checks err :
  module_constants (unset_empty w) s = module_constants w s
  /\ root_handler cfg req (unset_empty w) s = root_handler cfg req w s
  /\ health_handler (ret checks) req (unset_empty w) s
     = health_handler (ret checks) req w s
  /\ checkDependencies (unset_empty w) s = checkDependencies w s
  /\ error_handler err req (unset_empty w) s = error_handler err req w s.
Proof.
  split; [|split; [|split; [|split]]].
  - unfold module_constants, bind, process_env, Date_now, ret.
    rewrite !lookup_unset_empty.
    rewrite <- (or_default_unset_empty w "SERVICE_NAME"), lookup_unset_empty.
    destruct (env w !! "PORT") as [p|]; [|reflexivity].
    destruct (String.eqb p "") eqn:E; [reflexivity|]. now rewrite E.
  - rewrite !root_handler_returns, !or_default_unset_empty, stamp_unset_empty.
    reflexivity.
  - rewrite (health_handler_returns (ret checks) req (unset_empty w) s checks s eq_refl),
      (health_handler_returns (ret checks) req w s checks s eq_refl),
      !or_default_unset_empty, stamp_unset_empty.
    reflexivity.
  - rewrite !checkDependencies_returns, falsy_unset_empty. reflexivity.
  - rewrite !error_handler_returns, requestId_unset_empty, !stamp_unset_empty.
    reflexivity.
Qed.

(** ** The timing middleware *)

Example Number_toString_examples :
  Number_toString 0 = "0" /\ Number_toString 1250 = "1250"
  /\ Number_toString (-250) = "-250".
Proof. repeat split; reflexivity. Qed.

(** X14: the timing middleware is transparent: it sends on the response
    of the rest of the pipeline unchanged.  When a response is sent it
    adds one console line with the status code of that response and, as
    duration, the difference between the clock readings taken after and
    before (negative when the clock was set back in between); when no
    response is sent it logs nothing. *)
Theorem timed_request_logger_is_transparent next req w s :
  response (timed_request_logger next req w s) = response (next w (tick s))
  /\ match next w (tick s) with
     | (Ok r, s1) =>
         exists entry,
           console (snd (timed_request_logger next req w s))
           = (console s1 ++ [(Log, [entry])])%list
           /\ get "url" entry = VStr (originalUrl req)
           /\ get "statusCode" entry = VNum (inject_Z (statusCode r))
           /\ get "duration" entry
              = VStr (Number_toString (clock w (ticks s1) - clock w (ticks s))
                      ++ "ms")
     | (_, s1) => snd (timed_request_logger next req w s) = s1
     end.
Proof.
  unfold timed_request_logger, bind, Date_now.
  destruct (next w (tick s)) as [[r|e|] s1]; split; try reflexivity.
  eexists. repeat split; reflexivity.
Qed.

(** A response during which the clock is set back by two seconds. *)
Example timed_request_logger_clock_set_back :
  let run :=
    timed_request_logger (liveness_handler get_liveness) get_liveness
      (mkWorld ∅ (fun n => 1764000000000 - 1000 * Z.of_nat n) (5 # 1)) start in
  (exists r, response run = Some r /\ statusCode r = 200)
  /\ map (fun line => get "duration" (hd VNull (snd line))) (console (snd run))
     = [VStr "-2000ms"].
Proof. vm_compute. split; [eexists; split; reflexivity|reflexivity]. Qed.

(** ** Signals and uncaught errors *)

Lemma deliver_exited p e : exited p <> None -> deliver p e = p.
Proof. unfold deliver. destruct (exited p); [reflexivity|congruence]. Qed.

Lemma deliver_all_exited events :
  forall p, exited p <> None -> deliver_all p events = p.
Proof.
  induction events as [|e events IH]; intros p H; [reflexivity|].
  cbn [deliver_all fold_left]. rewrite (deliver_exited p e H). now apply IH.
Qed.

Lemma deliver_all_snoc p events e :
  deliver_all p (events ++ [e]) = deliver (deliver_all p events) e.
Proof. unfold deliver_all. now rewrite fold_left_app. Qed.

Lemma deliver_all_signals sigs :
  forall p, exited p = None ->
  deliver_all p (map Signal sigs)
  = mkProcess (output p ++ map signal_line sigs)
      (close_callbacks p + length sigs) None.
Proof.
  induction sigs as [|sig sigs IH]; intros p H.
  - cbn. rewrite app_nil_r, Nat.add_0_r. destruct p; cbn in *; now subst.
  - cbn [map deliver_all fold_left]. unfold deliver at 2. rewrite H.
    fold (deliver_all (on_signal sig p) (map Signal sigs)).
    rewrite IH by exact H. cbn [on_signal server_close print output close_callbacks].
    rewrite <- app_assoc. cbn [length app]. f_equal. lia.
Qed.

(** X15: termination signals alone never stop the process, however many
    arrive: each writes its line and asks the server to close.  When the
    server has closed, the process writes "Server closed" once and exits
    with code 0, and nothing is delivered to it any more. *)
Theorem graceful_shutdown (sig : signal) (sigs : list signal) :
  let p := deliver_all listening (map Signal (sig :: sigs)) in
  exited p = None
  /\ output p = map signal_line (sig :: sigs)
  /\ deliver p ServerClosed
     = mkProcess (output p ++ [(Log, [VStr "Server closed"])])
         (close_callbacks p) (Some 0)
  /\ forall events, deliver_all (deliver p ServerClosed) events
                    = deliver p ServerClosed.
Proof.
  cbv zeta. rewrite (deliver_all_signals (sig :: sigs) listening eq_refl).
  cbn [output close_callbacks listening app length Nat.add exited].
  split; [reflexivity|]. split; [reflexivity|]. split; [reflexivity|].
  intros events. apply deliver_all_exited. discriminate.
Qed.

(** X16: in a process that has not exited, also one that is shutting
    down, an uncaught exception or an unhandled rejection is written to
    the standard error and ends the process with code 1 at once; nothing
    is delivered to it any more. *)
Theorem uncaught_error_exits_1 (events : list event) (error reason promise : value) :
  let p := deliver_all listening events in
  exited p = None ->
  deliver p (UncaughtException error)
  = mkProcess (output p ++ [(Err, [VStr "Uncaught Exception:"; error])])
      (close_callbacks p) (Some 1)
  /\ deliver p (UnhandledRejection reason promise)
     = mkProcess
         (output p
          ++ [(Err, [VStr "Unhandled Rejection at:"; promise; VStr "reason:"; reason])])
         (close_callbacks p) (Some 1)
  /\ forall more,
       deliver_all (deliver p (UncaughtException error)) more
       = deliver p (UncaughtException error).
Proof.
  cbv zeta. intros H. unfold deliver at 1 2. rewrite H.
  split; [reflexivity|]. split; [reflexivity|].
  intros more. apply deliver_all_exited. unfold deliver. rewrite H. discriminate.
Qed.

(** X16, for an exception thrown while the server is closing. *)
Lemma uncaught_error_exits_1_witness :
  exited (deliver_all listening
            [Signal SIGTERM; UncaughtException (VStr "boom"); ServerClosed])
  = Some 1.
Proof.
  destruct (uncaught_error_exits_1 [Signal SIGTERM] (VStr "boom") VNull VNull eq_refl)
    as [_ [_ H]].
  change (deliver_all listening
            [Signal SIGTERM; UncaughtException (VStr "boom"); ServerClosed])
    with (deliver_all
            (deliver (deliver_all listening [Signal SIGTERM])
               (UncaughtException (VStr "boom")))
            [ServerClosed]).
  rewrite H. reflexivity.
Defined.

(** What holds of a process that has not exited: it has only seen
    termination signals and [close] events that found no callback. *)
Lemma running_process events :
  exited (deliver_all listening events) = None ->
  Forall (fun e => is_fatal e = false) events
  /\ close_callbacks (deliver_all listening events)
     = length (List.filter is_signal events)
  /\ (close_callbacks (deliver_all listening events) <> O ->
      exists sig, In (Signal sig) events).
Proof.
  induction events as [|e events IH] using rev_ind; intros H.
  - split; [constructor|]. split; [reflexivity|]. intros C. now elim C.
  - rewrite deliver_all_snoc in *.
    destruct (exited (deliver_all listening events)) as [code|] eqn:E.
    { rewrite deliver_exited in H by (rewrite E; discriminate). congruence. }
    destruct (IH eq_refl) as [IH1 [IH2 IH3]].
    unfold deliver in *. rewrite E in *.
    rewrite List.Forall_app, List.filter_app, length_app.
    destruct e as [sig| |error|reason promise]; cbn in H; try discriminate.
    + cbn. repeat split; auto.
      * rewrite IH2. lia.
      * intros _. exists sig. apply in_or_app. right. now left.
    + destruct (close_callbacks (deliver_all listening events)) eqn:C;
        [|discriminate].
      cbn. repeat split; auto.
      * rewrite <- IH2. lia.
      * congruence.
Qed.

(** X17: the process only ever exits with code 0 or 1.  Code 0 means
    that the server closed after a termination signal; code 1 means that
    an uncaught exception or an unhandled rejection was delivered; while
    the process runs, neither has happened. *)
Theorem exit_code_has_a_cause (events : list event) :
  match exited (deliver_all listening events) with
  | None => Forall (fun e => is_fatal e = false) events
  | Some code =>
      (code = 0
       /\ exists before after sig,
            events = (before ++ ServerClosed :: after)%list
            /\ In (Signal sig) before
            /\ Forall (fun e => is_fatal e = false) before)
      \/ (code = 1
          /\ exists before e after,
               events = (before ++ e :: after)%list /\ is_fatal e = true
               /\ Forall (fun e => is_fatal e = false) before)
  end.
Proof.
  induction events as [|e events IH] using rev_ind; [constructor|].
  rewrite deliver_all_snoc.
  destruct (exited (deliver_all listening events)) as [code|] eqn:E.
  - rewrite deliver_exited by (rewrite E; discriminate). rewrite E.
    destruct IH as [[-> [before [after [sig [-> [Hin Hf]]]]]]
                   |[-> [before [e' [after [-> [He Hf]]]]]]].
    + left. split; [reflexivity|]. exists before, (after ++ [e])%list, sig.
      rewrite <- app_assoc. auto.
    + right. split; [reflexivity|]. exists before, e', (after ++ [e])%list.
      rewrite <- app_assoc. auto.
  - destruct (running_process events E) as [R1 [R2 R3]].
    unfold deliver. rewrite E.
    destruct e as [sig| |error|reason promise]; cbn; rewrite ?E.
    + rewrite List.Forall_app. split; [exact R1|]. constructor; [reflexivity|constructor].
    + destruct (close_callbacks (deliver_all listening events)) eqn:C; cbn; rewrite ?E.
      * rewrite List.Forall_app. split; [exact R1|].
        constructor; [reflexivity|constructor].
      * left. split; [reflexivity|].
        destruct R3 as [sig Hsig]; [discriminate|].
        exists events, [], sig. auto.
    + right. split; [reflexivity|]. exists events, (UncaughtException error), [].
      auto.
    + right. split; [reflexivity|].
      exists events, (UnhandledRejection reason promise), []. auto.
Qed.

(** ** The endpoints that the 404 body advertises *)

Lemma no_space_app_space (x y : string) : no_space (x ++ String " " y) = false.
Proof.
  induction x as [|c x IH]; [reflexivity|].
  change (negb (Ascii.eqb c " ") && no_space (x ++ String " " y) = false).
  rewrite IH. apply andb_false_r.
Qed.

(** A key with a single space stands for one method and one path. *)
Lemma advertises_inv (a b : string) (req : Request) :
  no_space a = true -> no_space b = true ->
  advertises (a ++ String " " b) req -> method req = a /\ path req = b.
Proof.
  unfold advertises. change (" " ++ path req) with (String " " (path req)).
  generalize (method req) as m. generalize (path req) as p.
  induction a as [|c a IH]; intros p m Ha Hb H.
  - destruct m as [|c' m]; cbn in H.
    + injection H as ->. now split.
    + injection H as <- H. rewrite H, no_space_app_space in Hb. discriminate.
  - cbn in Ha. apply andb_true_iff in Ha. destruct Ha as [Hc Ha].
    destruct m as [|c' m]; cbn in H.
    + injection H as -> _. discriminate.
    + injection H as <- H. destruct (IH p m Ha Hb H) as [-> ->]. now split.
Qed.

(** X18: with a router that matches a route at least when the method
    and the path of the request are the route's, every endpoint that the
    404 body lists under [ui] and [health] is served: a request for it
    whose body the parsers accept is never answered 404. *)
Theorem advertised_endpoints route_match cfg gather ping body_parser key req w s :
  (forall m p r, method r = m -> path r = p -> route_match m p r = true) ->
  body_parser req = None ->
  advertises key req ->
  In key (advertised "ui" ++ advertised "health")%list ->
  match app route_match cfg gather ping body_parser req w s with
  | (Ok r, _) => statusCode r = 200 \/ statusCode r = 503
  | _ => True
  end.
Proof.
  intros T Hb A Hin.
  assert (S : method req = "GET"
              /\ (path req = "/" \/ path req = "/health"
                  \/ path req = "/health/readiness"
                  \/ path req = "/health/liveness")).
  { cbn in Hin.
    destruct Hin as [<-|[<-|[<-|[<-|[]]]]];
      match goal with
      | A : advertises (String ?g (String ?e (String ?t (String " " ?b)))) _ |- _ =>
          destruct (advertises_inv (String g (String e (String t ""))) b req
                      eq_refl eq_refl A) as [Hm Hp]
      end; split; auto. }
  destruct S as [Hm Hp]. unfold app. rewrite Hm, Hb. cbn [String.eqb Ascii.eqb Bool.eqb].
  rewrite routes_dispatch.
  destruct (route_match "GET" "/" req) eqn:R1.
  { rewrite root_handler_returns. now left. }
  destruct (route_match "GET" "/health" req) eqn:R2.
  { pose proof (health_outcome gather req w (after_logger req w s)) as H.
    destruct (health_handler gather req w (after_logger req w s)) as [[r|v|] s'];
      [exact H|exact I|exact I]. }
  destruct (route_match "GET" "/health/readiness" req) eqn:R3.
  { pose proof (template_readiness_outcome ping req w (after_logger req w s)) as H.
    destruct (readiness_handler (checkDatabase ping) checkDependencies req w
                (after_logger req w s)) as [[r|v|] s'];
      [now left|exact I|exact I]. }
  destruct (route_match "GET" "/health/liveness" req) eqn:R4.
  { rewrite liveness_handler_returns. now left. }
  exfalso.
  destruct Hp as [Hp|[Hp|[Hp|Hp]]];
    [rewrite (T _ _ _ Hm Hp) in R1|rewrite (T _ _ _ Hm Hp) in R2
    |rewrite (T _ _ _ Hm Hp) in R3|rewrite (T _ _ _ Hm Hp) in R4];
    discriminate.
Qed.

Lemma exact_match_complete m p r :
  method r = m -> path r = p -> exact_match m p r = true.
Proof. intros <- <-. unfold exact_match. now rewrite !String.eqb_refl. Qed.

(** X18, for the liveness endpoint. *)
Lemma advertised_endpoints_witness :
  match app exact_match example_config (ret template_checks) (ret tt)
          (fun _ => None) get_liveness development start with
  | (Ok r, _) => statusCode r = 200 \/ statusCode r = 503
  | _ => True
  end.
Proof.
  apply (advertised_endpoints exact_match example_config (ret template_checks)
           (ret tt) (fun _ => None) "GET /health/liveness" get_liveness
           development start exact_match_complete eq_refl eq_refl).
  cbn. auto.
Defined.
